(** * info_class backend: the token exchange and verification pipeline

    A shallow embedding of [backend/config/settings.py],
    [backend/config/firebase_config.py], [backend/auth/models.py],
    [backend/auth/role_manager.py], [backend/auth/jwt_manager.py],
    [backend/auth/firebase_validator.py] and the exchange and refresh
    routes of [backend/api/auth_routes.py], followed by the properties
    the specification states about them.

    Conventions.
    - Python [str] is [string], the UTF-8 bytes of the text.
      [str.lower] is [PyStr.lower], a parameter of the development:
      what is known of it are the laws of [PyStr.Casing], that it is
      idempotent and that it folds the letters A-Z of an ASCII prefix.
      [PyStr.ascii_casing], which folds A-Z and nothing else, is one
      such function; the examples are evaluated with it.
    - A raised exception is a value [Exc cls msg]; a function that may
      raise returns [result A]; [try ... except C] is [isinstance].
    - An aware UTC [datetime] is its number of microseconds since the
      epoch, a [Z] inside the range of years 1 to 9999.
    - Every reading of the clock ([datetime.now]) is an explicit
      argument of the function that reads it.
    - The process-wide [settings] object is passed explicitly; the two
      operations that mutate it return the new settings.
    - A pydantic model is a record of fields of the declared types.
      The check of an [EmailStr] field belongs to the email-validator
      package; it is the parameter [pydantic.EmailStr], applied where
      [refresh_token] builds a [UserWithRole] from the claims of a
      token.  A [UserInfo.t] or [UserWithRole.t] value stands for a
      model that was built: what is stated about [validate_token] is
      what happens when a check fails before [UserInfo] is built, and
      what holds of an identity it returned.
    - [int(d.timestamp())] goes through a float; [int_timestamp] is
      the whole seconds of [d], which that float has for the instants
      of [Token.float_exact]. *)

From Stdlib Require Import Ascii String ZArith.
From stdpp Require Import base strings pretty list gmap.

Open Scope string_scope.
Open Scope Z_scope.

(** ** Python strings *)

Module PyStr.

(** [c.lower()] for one ASCII character. *)
Definition lower_ascii (c : ascii) : ascii :=
  let n := nat_of_ascii c in
  if ((65 <=? n)%nat && (n <=? 90)%nat)%bool
  then ascii_of_nat (n + 32) else c.

(** The letters A-Z of [s] folded, every other byte kept. *)
Fixpoint ascii_lower (s : string) : string :=
  match s with
  | EmptyString => EmptyString
  | String c s' => String (lower_ascii c) (ascii_lower s')
  end.

(** [s.isascii()]: every byte is below 128. *)
Fixpoint is_ascii (s : string) : bool :=
  match s with
  | EmptyString => true
  | String c s' => (nat_of_ascii c <? 128)%nat && is_ascii s'
  end.

(** [s.lower()].  Python folds every cased letter of Unicode, and the
    result may be longer than [s]; the development relies on two facts
    only.  Lower-casing twice is lower-casing once; and an ASCII
    prefix is folded letter by letter, whatever follows it (what
    follows is lower-cased in its context, to nothing when it is
    empty). *)
Class Casing : Type := {
  lower : string -> string;
  lower_idem : forall s, lower (lower s) = lower s;
  lower_ascii_prefix :
    forall p m, is_ascii p = true ->
      exists m', lower (p +:+ m) = ascii_lower p +:+ m' /\
                 (m = "" -> m' = "")
}.

(** The folding of A-Z alone: [str.lower] on ASCII text. *)
Definition ascii_casing : Casing.
Proof.
  refine {| lower := ascii_lower |}.
  - intros s. induction s as [|c s IH]; simpl; [reflexivity|].
    rewrite IH. f_equal. by destruct c as [[] [] [] [] [] [] [] []].
  - intros p m _. exists (ascii_lower m). split.
    + induction p as [|c p IH]; simpl; [reflexivity|]. by rewrite IH.
    + by intros ->.
Defined.

(** [s.endswith(suffix)]. *)
Fixpoint endswith (s suffix : string) : bool :=
  String.eqb s suffix ||
  match s with
  | EmptyString => false
  | String _ s' => endswith s' suffix
  end.

(** [sub in s], the substring test. *)
Fixpoint contains (sub s : string) : bool :=
  String.prefix sub s ||
  match s with
  | EmptyString => false
  | String _ s' => contains sub s'
  end.

(** [any(phrase in s for phrase in phrases)]. *)
Definition any_in (phrases : list string) (s : string) : bool :=
  existsb (fun phrase => contains phrase s) phrases.

(** [not s] for an optional string: [None] and [""] are falsy. *)
Definition falsy (o : option string) : bool :=
  match o with
  | None => true
  | Some s => String.eqb s ""
  end.

End PyStr.

(** ** Exceptions *)

Module Py.

Inductive exc_class : Set :=
| Exception
| ValueError
| KeyError
| AttributeError
| OverflowError
(* pydantic *)
| ValidationError
(* firebase_admin.auth *)
| InvalidIdTokenError
| ExpiredIdTokenError
| RevokedIdTokenError
(* jwt.exceptions *)
| InvalidTokenError
| DecodeError
| InvalidSignatureError
| InvalidAlgorithmError
| ImmatureSignatureError
| ExpiredSignatureError
| InvalidAudienceError.

Global Instance exc_class_eq_dec : EqDecision exc_class.
Proof. solve_decision. Defined.

(** The direct base class; [Exception] is the root. *)
Definition base (c : exc_class) : option exc_class :=
  match c with
  | Exception => None
  | ExpiredIdTokenError | RevokedIdTokenError => Some InvalidIdTokenError
  | ValidationError => Some ValueError
  | DecodeError | ImmatureSignatureError | ExpiredSignatureError
  | InvalidAlgorithmError | InvalidAudienceError => Some InvalidTokenError
  | InvalidSignatureError => Some DecodeError
  | _ => Some Exception
  end.

(** [issubclass c handler], by walking up at most three levels. *)
Definition issubclass (c handler : exc_class) : bool :=
  bool_decide (c = handler) ||
  match base c with
  | None => false
  | Some b =>
      bool_decide (b = handler) ||
      match base b with
      | None => false
      | Some b' =>
          bool_decide (b' = handler) ||
          match base b' with
          | None => false
          | Some b'' => bool_decide (b'' = handler)
          end
      end
  end.

Record exc : Set := Exc { exc_cls : exc_class; exc_msg : string }.

(** [isinstance(e, handler)]: does [except handler] catch [e]? *)
Definition isinstance (e : exc) (handler : exc_class) : bool :=
  issubclass (exc_cls e) handler.

Inductive result (A : Type) : Type :=
| Ok (a : A)
| Raise (e : exc).
Global Arguments Ok {A} a.
Global Arguments Raise {A} e.

Definition bind {A B} (r : result A) (k : A -> result B) : result B :=
  match r with
  | Ok a => k a
  | Raise e => Raise e
  end.

(** [try: r  except Exception: return None]. *)
Definition to_option {A} (r : result A) : option A :=
  match r with
  | Ok a => Some a
  | Raise _ => None
  end.

Definition is_ok {A} (r : result A) : bool :=
  match r with Ok _ => true | Raise _ => false end.

End Py.

Import Py.

Global Instance result_ret : MRet result := @Ok.
Global Instance result_bind : MBind result := fun A B k r => Py.bind r k.

(** ** datetime *)

Module datetime.

Definition MICRO : Z := 1000000.
Definition HOUR : Z := 3600 * MICRO.

(** [datetime.min] and [datetime.max] at UTC, in microseconds. *)
Definition min : Z := -62135596800 * MICRO.
Definition max : Z := 253402300799 * MICRO + 999999.

Definition in_range (d : Z) : bool := (min <=? d) && (d <=? max).

(** [timedelta(hours=h)]: a duration in microseconds; more than
    999999999 days of magnitude is an [OverflowError]. *)
Definition timedelta_hours (h : Z) : result Z :=
  if Z.abs (h / 24) <=? 999999999 then Ok (h * HOUR)
  else Raise (Exc OverflowError
                ("days=" +:+ pretty (h / 24)
                 +:+ "; must have magnitude <= 999999999")).

(** [d + td]. *)
Definition add (d td : Z) : result Z :=
  if in_range (d + td) then Ok (d + td)
  else Raise (Exc OverflowError "date value out of range").

(** [int(d.timestamp())]: whole seconds, truncated towards zero.  The
    source takes them from the float [d.timestamp()], which has the
    whole seconds of [d] from the epoch up to 2^34 seconds after it
    and may be rounded up to the next second later on. *)
Definition int_timestamp (d : Z) : Z := Z.quot d MICRO.

(** [datetime.fromtimestamp(secs, tz=timezone.utc)] for an integer
    number of seconds. *)
Definition fromtimestamp (secs : Z) : result Z :=
  if in_range (secs * MICRO) then Ok (secs * MICRO)
  else Raise (Exc ValueError "year is out of range").

End datetime.

(** ** config/settings.py *)

Module Settings.

(** The attributes of the [Settings] class the pipeline reads.
    [DEBUG], [SECRET_KEY] and [ACCESS_TOKEN_EXPIRE_HOURS] come from
    the environment; [ADMIN_EMAILS] is mutated at run time. *)
Record t : Type := mk {
  DEBUG : bool;
  SECRET_KEY : string;
  ACCESS_TOKEN_EXPIRE_HOURS : Z;
  ALLOWED_EMAIL_DOMAIN : string;
  ADMIN_EMAILS : list string
}.

Definition ALGORITHM : string := "HS256".

(** The class body, given the three environment values. *)
Definition from_env (debug : bool) (secret_key : string) (hours : Z) : t :=
  {| DEBUG := debug;
     SECRET_KEY := secret_key;
     ACCESS_TOKEN_EXPIRE_HOURS := hours;
     ALLOWED_EMAIL_DOMAIN := "@pocheonil.hs.kr";
     ADMIN_EMAILS := ["admin@pocheonil.hs.kr"] |}.

Definition set_ADMIN_EMAILS (l : list string) (s : t) : t :=
  {| DEBUG := DEBUG s;
     SECRET_KEY := SECRET_KEY s;
     ACCESS_TOKEN_EXPIRE_HOURS := ACCESS_TOKEN_EXPIRE_HOURS s;
     ALLOWED_EMAIL_DOMAIN := ALLOWED_EMAIL_DOMAIN s;
     ADMIN_EMAILS := l |}.

Section casing.

Context {casing : PyStr.Casing}.

(** [email.lower() in [admin.lower() for admin in self.ADMIN_EMAILS]] *)
Definition is_admin_email (s : t) (email : string) : bool :=
  bool_decide (PyStr.lower email ∈ PyStr.lower <$> ADMIN_EMAILS s).

(** [email.lower().endswith(self.ALLOWED_EMAIL_DOMAIN.lower())] *)
Definition is_allowed_domain (s : t) (email : string) : bool :=
  PyStr.endswith (PyStr.lower email) (PyStr.lower (ALLOWED_EMAIL_DOMAIN s)).

End casing.

End Settings.

(** ** auth/models.py *)

Module UserRole.
Definition ADMIN : string := "admin".
Definition STUDENT : string := "student".
Definition GUEST : string := "guest".
End UserRole.

Module UserInfo.
Record t : Type := mk {
  uid : string;
  email : string;
  name : option string;
  picture : option string;
  email_verified : bool
}.
End UserInfo.

Module UserWithRole.
Record t : Type := mk {
  uid : string;
  email : string;
  name : option string;
  picture : option string;
  email_verified : bool;
  role : string;
  permissions : list string
}.
End UserWithRole.

Module JWTPayload.
Record t : Type := mk {
  sub : string;
  email : string;
  name : option string;
  role : string;
  permissions : list string;
  iat : Z;
  exp : Z;
  iss : string
}.
End JWTPayload.

Module pydantic.

(** What building a model with an [email: EmailStr] field makes of
    the string given for it: the normalised address, which the model
    then holds, or the text of the [ValidationError] (a [ValueError])
    the constructor raises. *)
Class Validator : Type := { EmailStr : string -> string + string }.

Definition validate_email {validator : Validator} (email : string) : result string :=
  match EmailStr email with
  | inl normalised => Ok normalised
  | inr message => Raise (Exc ValidationError message)
  end.

(** A validator to evaluate the examples with: it keeps a string that
    has an @-sign as it is and refuses any other, which is what the
    package does with a plain lower-case address and with a string
    without an @-sign; the text of its refusal is the reason the
    package's report gives. *)
Definition sample_validator : Validator :=
  {| EmailStr email :=
       if PyStr.contains "@" email then inl email
       else inr "value is not a valid email address: An email address must have an @-sign." |}.

End pydantic.

(** ** auth/role_manager.py *)

Module RoleManager.

Definition ROLE_PERMISSIONS : gmap string (list string) :=
  {[ UserRole.ADMIN :=
       [ "read_all_files"; "upload_files"; "delete_files"; "manage_users";
         "view_submissions"; "manage_subjects"; "system_admin" ];
     UserRole.STUDENT :=
       [ "read_assigned_files"; "download_files"; "upload_submissions";
         "view_own_submissions" ];
     UserRole.GUEST := [ "read_public_info" ] ]}.

Section casing.

Context {casing : PyStr.Casing}.

Definition determine_user_role (s : Settings.t) (user : UserInfo.t) : string :=
  let email := PyStr.lower (UserInfo.email user) in
  if Settings.is_admin_email s email then UserRole.ADMIN
  else if Settings.is_allowed_domain s email then UserRole.STUDENT
  else UserRole.GUEST.

(** [ROLE_PERMISSIONS.get(role, [])] *)
Definition get_role_permissions (role : string) : list string :=
  default [] (ROLE_PERMISSIONS !! role).

Definition create_user_with_role (s : Settings.t) (user : UserInfo.t)
  : UserWithRole.t :=
  let role := determine_user_role s user in
  let permissions := get_role_permissions role in
  {| UserWithRole.uid := UserInfo.uid user;
     UserWithRole.email := UserInfo.email user;
     UserWithRole.name := UserInfo.name user;
     UserWithRole.picture := UserInfo.picture user;
     UserWithRole.email_verified := UserInfo.email_verified user;
     UserWithRole.role := role;
     UserWithRole.permissions := permissions |}.

(** [required_permission in role_permissions] *)
Definition has_permission (user_role required_permission : string) : bool :=
  bool_decide (required_permission ∈ get_role_permissions user_role).

(** [user_role == UserRole.ADMIN] *)
Definition is_admin (user_role : string) : bool :=
  String.eqb user_role UserRole.ADMIN.

(** [user_role == UserRole.STUDENT] *)
Definition is_student (user_role : string) : bool :=
  String.eqb user_role UserRole.STUDENT.

Definition can_access_admin_features (user_role : string) : bool :=
  has_permission user_role "system_admin".

Definition can_manage_files (user_role : string) : bool :=
  has_permission user_role "upload_files".

Definition can_view_submissions (user_role : string) : bool :=
  has_permission user_role "view_submissions".

(** [add_admin_email]: appends the lower-cased email unless some
    entry already equals it up to case. *)
Definition add_admin_email (email : string) (s : Settings.t) : Settings.t :=
  if negb (bool_decide
             (PyStr.lower email ∈ PyStr.lower <$> Settings.ADMIN_EMAILS s))
  then Settings.set_ADMIN_EMAILS
         (Settings.ADMIN_EMAILS s ++ [PyStr.lower email]) s
  else s.

(** [list.remove(x)]: drops the first element equal to [x];
    [None] stands for the [ValueError] of an absent [x]. *)
Fixpoint list_remove (x : string) (l : list string) : option (list string) :=
  match l with
  | [] => None
  | y :: l' =>
      if String.eqb y x then Some l'
      else option_map (cons y) (list_remove x l')
  end.

(** [remove_admin_email]: the loop stops at the first entry that
    equals [email] up to case and removes that entry by value. *)
Definition remove_admin_email (email : string) (s : Settings.t)
  : Settings.t * bool :=
  match List.find (fun admin_email =>
                     String.eqb (PyStr.lower admin_email) (PyStr.lower email))
                  (Settings.ADMIN_EMAILS s) with
  | Some admin_email =>
      match list_remove admin_email (Settings.ADMIN_EMAILS s) with
      | Some l' => (Settings.set_ADMIN_EMAILS l' s, true)
      | None => (s, false)
      end
  | None => (s, false)
  end.

End casing.

End RoleManager.

(** ** The PyJWT library, as the pipeline uses it

    A token string is modelled by what it decodes to.  [Opaque raw] is
    a string that is not a compact JWS with a JSON-object payload.
    [JWS alg key payload] is the serialisation of [payload] under the
    header algorithm [alg] whose signature segment was computed with
    [key]: the signature verifies under a key and an algorithm list
    exactly when the key is [key] and the list holds [alg].  A token
    whose signature segment was altered is a [JWS] under another key.

    The payload carries the claims of [JWTPayload] and the two other
    registered claims a verifying [decode] looks at, [nbf] and [aud];
    each may be absent, and each has the JSON type the library and
    [JWTPayload] expect of it.  An absent [name] also stands for the
    JSON null that [model_dump] writes for a user without a display
    name. *)

Module jwt.

(** An [aud] claim: one audience or a list of them. *)
Inductive audience : Type :=
| Audience (a : string)
| Audiences (l : list string).

Record claims : Type := mk {
  sub : option string;
  email : option string;
  name : option string;
  role : option string;
  permissions : option (list string);
  iat : option Z;
  exp : option Z;
  iss : option string;
  nbf : option Z;
  aud : option audience
}.

Inductive token : Type :=
| Opaque (raw : string)
| JWS (alg key : string) (payload : claims).

Definition present {A} (o : option A) : bool :=
  match o with Some _ => true | None => false end.

(** [claim in payload] *)
Definition has_claim (claim : string) (payload : claims) : bool :=
  if String.eqb claim "sub" then present (sub payload)
  else if String.eqb claim "email" then present (email payload)
  else if String.eqb claim "name" then present (name payload)
  else if String.eqb claim "role" then present (role payload)
  else if String.eqb claim "permissions" then present (permissions payload)
  else if String.eqb claim "iat" then present (iat payload)
  else if String.eqb claim "exp" then present (exp payload)
  else if String.eqb claim "iss" then present (iss payload)
  else if String.eqb claim "nbf" then present (nbf payload)
  else if String.eqb claim "aud" then present (aud payload)
  else false.

(** Truth value of the payload dict: false for the empty dict. *)
Definition nonempty (payload : claims) : bool :=
  existsb (fun claim => has_claim claim payload)
    ["sub"; "email"; "name"; "role"; "permissions"; "iat"; "exp"; "iss";
     "nbf"; "aud"].

(** [not payload["aud"]] for a payload with or without the claim:
    absent, the empty string and the empty list are falsy. *)
Definition no_audience (payload : claims) : bool :=
  match aud payload with
  | None => true
  | Some (Audience a) => String.eqb a ""
  | Some (Audiences l) => bool_decide (l = [])
  end.

(** [payload.model_dump()] *)
Definition model_dump (p : JWTPayload.t) : claims :=
  {| sub := Some (JWTPayload.sub p);
     email := Some (JWTPayload.email p);
     name := JWTPayload.name p;
     role := Some (JWTPayload.role p);
     permissions := Some (JWTPayload.permissions p);
     iat := Some (JWTPayload.iat p);
     exp := Some (JWTPayload.exp p);
     iss := Some (JWTPayload.iss p);
     nbf := None;
     aud := None |}.

(** [jwt.encode(payload, key, algorithm=alg)] *)
Definition encode (payload : claims) (key alg : string) : token :=
  JWS alg key payload.

(** The registered-claim checks of a verifying [decode] called
    without [audience] and without leeway, in the library's order: an
    issued-at or a not-before later than the clock is not yet valid,
    an expiry at or before the clock is expired, and an audience
    claim is refused since none is expected.  [now] is the clock in
    microseconds, the claims are in seconds. *)
Definition validate_claims (now : Z) (payload : claims) : result claims :=
  _ ← match iat payload with
      | Some i =>
          if now <? i * datetime.MICRO
          then Raise (Exc ImmatureSignatureError
                        "The token is not yet valid (iat)")
          else Ok ()
      | None => Ok ()
      end;
  _ ← match nbf payload with
      | Some n =>
          if now <? n * datetime.MICRO
          then Raise (Exc ImmatureSignatureError
                        "The token is not yet valid (nbf)")
          else Ok ()
      | None => Ok ()
      end;
  _ ← match exp payload with
      | Some e =>
          if e * datetime.MICRO <=? now
          then Raise (Exc ExpiredSignatureError "Signature has expired")
          else Ok ()
      | None => Ok ()
      end;
  _ ← (if no_audience payload then Ok ()
       else Raise (Exc InvalidAudienceError "Invalid audience"));
  Ok payload.

(** [jwt.decode(token, key, algorithms=algorithms,
                options={"verify_signature": True, "verify_exp": True,
                         "verify_iat": True, ...})] *)
Definition decode (now : Z) (tok : token) (key : string)
    (algorithms : list string) : result claims :=
  match tok with
  | Opaque _ => Raise (Exc DecodeError "Not enough segments")
  | JWS alg k payload =>
      if negb (bool_decide (alg ∈ algorithms))
      then Raise (Exc InvalidAlgorithmError
                    "The specified alg value is not allowed")
      else if negb (String.eqb k key)
      then Raise (Exc InvalidSignatureError "Signature verification failed")
      else validate_claims now payload
  end.

(** [jwt.decode(token, options={"verify_signature": False,
                                "verify_exp": False})] *)
Definition decode_unverified (tok : token) : result claims :=
  match tok with
  | Opaque _ => Raise (Exc DecodeError "Not enough segments")
  | JWS _ _ payload => Ok payload
  end.

End jwt.

(** ** auth/jwt_manager.py *)

Module JWTManager.

Definition ISSUER : string := "info-class-api".

Definition create_access_token (s : Settings.t) (now : Z)
    (user : UserWithRole.t) : result (jwt.token * Z) :=
  match
    td ← datetime.timedelta_hours (Settings.ACCESS_TOKEN_EXPIRE_HOURS s);
    expires_at ← datetime.add now td;
    let payload :=
      {| JWTPayload.sub := UserWithRole.uid user;
         JWTPayload.email := UserWithRole.email user;
         JWTPayload.name := UserWithRole.name user;
         JWTPayload.role := UserWithRole.role user;
         JWTPayload.permissions := UserWithRole.permissions user;
         JWTPayload.iat := datetime.int_timestamp now;
         JWTPayload.exp := datetime.int_timestamp expires_at;
         JWTPayload.iss := ISSUER |} in
    let token :=
      jwt.encode (jwt.model_dump payload) (Settings.SECRET_KEY s)
        Settings.ALGORITHM in
    Ok (token, expires_at)
  with
  | Ok r => Ok r
  | Raise e =>
      Raise (Exc ValueError ("Failed to create JWT token: " +:+ exc_msg e))
  end.

Definition required_claims : list string :=
  ["sub"; "email"; "role"; "exp"; "iat"].

Definition verify_access_token (s : Settings.t) (now : Z)
    (token : jwt.token) : result jwt.claims :=
  match
    payload ← jwt.decode now token (Settings.SECRET_KEY s)
                [Settings.ALGORITHM];
    _ ← match List.find (fun claim => negb (jwt.has_claim claim payload))
                required_claims with
        | Some claim =>
            Raise (Exc ValueError ("Missing required claim: " +:+ claim))
        | None => Ok ()
        end;
    _ ← (if negb (bool_decide (jwt.iss payload = Some ISSUER))
         then Raise (Exc ValueError "Invalid token issuer")
         else Ok ());
    Ok payload
  with
  | Ok payload => Ok payload
  | Raise e =>
      if isinstance e ExpiredSignatureError
      then Raise (Exc ValueError "Token has expired")
      else if isinstance e InvalidTokenError
      then Raise (Exc ValueError ("Invalid token: " +:+ exc_msg e))
      else Raise (Exc ValueError
                    ("Token verification failed: " +:+ exc_msg e))
  end.

Definition decode_token_without_verification (token : jwt.token)
  : option jwt.claims :=
  Py.to_option (jwt.decode_unverified token).

Definition get_token_expiration (token : jwt.token) : option Z :=
  match
    match decode_token_without_verification token with
    | Some payload =>
        if jwt.nonempty payload && jwt.has_claim "exp" payload
        then
          match jwt.exp payload with
          | Some e => d ← datetime.fromtimestamp e; Ok (Some d)
          | None => Raise (Exc KeyError "'exp'")
          end
        else Ok None
    | None => Ok None
    end
  with
  | Ok o => o
  | Raise _ => None
  end.

Definition is_token_expired (now : Z) (token : jwt.token) : bool :=
  match get_token_expiration token with
  | Some expiration => expiration <? now
  | None => true
  end.

(** The clock is read twice: [now] for the threshold, [now'] inside
    [create_access_token]. *)
Definition refresh_token_if_needed (s : Settings.t) (now now' : Z)
    (token : jwt.token) (user : UserWithRole.t)
    (refresh_threshold_hours : Z) : option (jwt.token * Z) :=
  match
    match get_token_expiration token with
    | None => Ok None
    | Some expiration =>
        td ← datetime.timedelta_hours refresh_threshold_hours;
        threshold_time ← datetime.add now td;
        if expiration <=? threshold_time
        then r ← create_access_token s now' user; Ok (Some r)
        else Ok None
    end
  with
  | Ok o => o
  | Raise _ => None
  end.

End JWTManager.

(** ** config/firebase_config.py *)

Module DecodedToken.
(** The claims of a verified Firebase ID token that the validator
    reads with [decoded_token.get]. *)
Record t : Type := mk {
  uid : option string;
  email : option string;
  name : option string;
  display_name : option string;
  picture : option string;
  email_verified : option bool
}.
End DecodedToken.

Module FirebaseConfig.

(** The one piece of state of the class: the initialised app. *)
Record t : Type := mk { _app : option string }.

(** The names the class body defines. *)
Definition members : list string :=
  ["_app"; "initialize_firebase"; "get_auth_client"; "verify_id_token"].

(** Attribute lookup on the instance. *)
Definition getattr (attr : string) : result string :=
  if bool_decide (attr ∈ members) then Ok attr
  else Raise (Exc AttributeError
                ("'FirebaseConfig' object has no attribute '"
                 +:+ attr +:+ "'")).

(** The identity provider behind [verify_id_token], lazy
    initialisation of the SDK included: it decodes a raw token or
    raises. *)
Definition provider : Type := string -> result DecodedToken.t.

(** What the file system, the process environment and the
    [firebase_admin] SDK answer to the calls of this class. *)
Record sdk : Type := mk_sdk {
  (* os.path.exists(settings.FIREBASE_SERVICE_ACCOUNT_PATH) *)
  path_exists : bool;
  (* credentials.Certificate(settings.FIREBASE_SERVICE_ACCOUNT_PATH) *)
  certificate_from_path : result string;
  (* os.getenv("FIREBASE_SERVICE_ACCOUNT_KEY") *)
  service_account_key : option string;
  (* credentials.Certificate(json.loads(service_account_key)) *)
  certificate_from_key : string -> result string;
  (* firebase_admin.initialize_app(cred, {'projectId': ...}) *)
  initialize_app : string -> result string;
  (* auth.verify_id_token(id_token) *)
  auth_verify_id_token : provider
}.

Definition NO_CREDENTIALS : string :=
  "Firebase service account credentials not found. "
  +:+ "Please set FIREBASE_SERVICE_ACCOUNT_PATH or "
  +:+ "FIREBASE_SERVICE_ACCOUNT_KEY environment variable.".

(** [initialize_firebase]: the class state after the call and the app
    returned or the error raised.  [cls._app] is assigned only after
    [initialize_app] has returned. *)
Definition initialize_firebase (env : sdk) (fc : t) : t * result string :=
  match _app fc with
  | Some app => (fc, Ok app)
  | None =>
      match
        cred ← (if path_exists env then certificate_from_path env
                else if negb (PyStr.falsy (service_account_key env))
                then certificate_from_key env
                       (default "" (service_account_key env))
                else Raise (Exc ValueError NO_CREDENTIALS));
        initialize_app env cred
      with
      | Ok app => ({| _app := Some app |}, Ok app)
      | Raise e =>
          (fc, Raise (Exc ValueError
                        ("Failed to initialize Firebase Admin SDK: "
                         +:+ exc_msg e)))
      end
  end.

(** [get_auth_client]: initialises on first use and returns the [auth]
    module. *)
Definition get_auth_client (env : sdk) (fc : t) : t * result unit :=
  match _app fc with
  | None =>
      let '(fc', r) := initialize_firebase env fc in
      (fc', _ ← r; Ok ())
  | Some _ => (fc, Ok ())
  end.

Definition verify_id_token (env : sdk) (fc : t) (id_token : string)
  : t * result DecodedToken.t :=
  let '(fc', r) := get_auth_client env fc in
  (fc', _ ← r; auth_verify_id_token env id_token).

End FirebaseConfig.

(** ** The collaborators a request invokes, in order *)

Inductive call : Type :=
| CallVerifyIdToken (firebase_token : string)
| CallCreateUserWithRole
| CallCreateAccessToken
| CallVerifyAccessToken.

(** ** auth/firebase_validator.py *)

Module FirebaseTokenValidator.

Definition mock_user : UserInfo.t :=
  {| UserInfo.uid := "dev_user_123";
     UserInfo.email := "admin@pocheonil.hs.kr";
     UserInfo.name := Some "개발자 계정";
     UserInfo.picture := None;
     UserInfo.email_verified := true |}.

(** [decoded_token.get('name') or decoded_token.get('display_name')] *)
Definition name_of (d : DecodedToken.t) : option string :=
  if PyStr.falsy (DecodedToken.name d) then DecodedToken.display_name d
  else DecodedToken.name d.

Section casing.

Context {casing : PyStr.Casing}.

(** The four policy checks on the decoded token, in source order,
    and the identity that is built when they pass. *)
Definition check_decoded (s : Settings.t) (d : DecodedToken.t)
  : result UserInfo.t :=
  let uid := DecodedToken.uid d in
  let email := DecodedToken.email d in
  let name := name_of d in
  let picture := DecodedToken.picture d in
  let email_verified := default false (DecodedToken.email_verified d) in
  if PyStr.falsy uid
  then Raise (Exc ValueError "Token does not contain user ID")
  else if PyStr.falsy email
  then Raise (Exc ValueError "Token does not contain email")
  else if negb email_verified
  then Raise (Exc ValueError "Email address is not verified")
  else if negb (Settings.is_allowed_domain s (default "" email))
  then Raise (Exc ValueError
                ("Email domain not allowed. Must be from "
                 +:+ Settings.ALLOWED_EMAIL_DOMAIN s))
  else Ok {| UserInfo.uid := default "" uid;
             UserInfo.email := default "" email;
             UserInfo.name := name;
             UserInfo.picture := picture;
             UserInfo.email_verified := email_verified |}.

(** The [except] clauses of [validate_token]. *)
Definition handle (r : result UserInfo.t) : result UserInfo.t :=
  match r with
  | Ok u => Ok u
  | Raise e =>
      if isinstance e InvalidIdTokenError
      then Raise (Exc ValueError ("Invalid Firebase token: " +:+ exc_msg e))
      else if isinstance e ExpiredIdTokenError
      then Raise (Exc ValueError ("Expired Firebase token: " +:+ exc_msg e))
      else if isinstance e RevokedIdTokenError
      then Raise (Exc ValueError ("Revoked Firebase token: " +:+ exc_msg e))
      else if PyStr.contains "Email domain not allowed" (exc_msg e)
              || PyStr.contains "Email address is not verified" (exc_msg e)
      then Raise e
      else Raise (Exc ValueError
                    ("Token validation failed: " +:+ exc_msg e))
  end.

(** [settings.DEBUG and not firebase_config.is_initialized()]:
    [and] evaluates the call only when [DEBUG] is set.  The value
    after a successful lookup is what such a method would answer; the
    class defines no such member, so it is never computed. *)
Definition mock_mode (s : Settings.t) (fc : FirebaseConfig.t) : result bool :=
  if Settings.DEBUG s
  then _ ← FirebaseConfig.getattr "is_initialized";
       Ok (negb (jwt.present (FirebaseConfig._app fc)))
  else Ok false.

Definition validate_token (s : Settings.t) (fc : FirebaseConfig.t)
    (verify_id_token : FirebaseConfig.provider) (firebase_token : string)
  : list call * result UserInfo.t :=
  match mock_mode s fc with
  | Raise e => ([], handle (Raise e))
  | Ok true => ([], handle (Ok mock_user))
  | Ok false =>
      ([CallVerifyIdToken firebase_token],
       handle (decoded_token ← verify_id_token firebase_token;
               check_decoded s decoded_token))
  end.

End casing.

End FirebaseTokenValidator.

(** ** api/auth_routes.py *)

Module auth_routes.

Record TokenData : Type := mk {
  jwt_token : jwt.token;
  user : UserWithRole.t;
  expires_at : Z
}.

(** What a route returns: the response body, or the [HTTPException]
    it raises with its status, error code and message. *)
Inductive response : Type :=
| TokenExchangeResponse (data : TokenData)
| HTTPException (status_code : Z) (code : string) (message : string).

Section libraries.

Context {casing : PyStr.Casing} {validator : pydantic.Validator}.

(** The status and error code [exchange_firebase_token] picks for the
    message of a [ValueError]. *)
Definition classify (error_message : string) : Z * string :=
  let m := PyStr.lower error_message in
  if PyStr.any_in ["invalid"; "expired"; "revoked"; "malformed"] m
  then (400, "INVALID_TOKEN")
  else if PyStr.any_in ["domain not allowed"; "not verified"] m
  then (401, "UNAUTHORIZED")
  else if PyStr.contains "access denied" m
  then (403, "FORBIDDEN")
  else (400, "BAD_REQUEST").

Definition exchange_error (e : exc) : response :=
  if isinstance e ValueError
  then let '(status_code, error_code) := classify (exc_msg e) in
       HTTPException status_code error_code (exc_msg e)
  else HTTPException 500 "INTERNAL_ERROR"
         "내부 서버 오류가 발생했습니다. 잠시 후 다시 시도해주세요.".

Definition exchange_firebase_token (s : Settings.t) (fc : FirebaseConfig.t)
    (verify_id_token : FirebaseConfig.provider) (now : Z)
    (firebase_token : string) : list call * response :=
  let '(calls, r) :=
    FirebaseTokenValidator.validate_token s fc verify_id_token
      firebase_token in
  match r with
  | Raise e => (calls, exchange_error e)
  | Ok user_info =>
      let user_with_role := RoleManager.create_user_with_role s user_info in
      let calls' :=
        (calls ++ [CallCreateUserWithRole; CallCreateAccessToken])%list in
      match JWTManager.create_access_token s now user_with_role with
      | Ok (jwt_token, expires_at) =>
          (calls',
           TokenExchangeResponse
             {| jwt_token := jwt_token;
                user := user_with_role;
                expires_at := expires_at |})
      | Raise e => (calls', exchange_error e)
      end
  end.

Definition refresh_error (e : exc) : response :=
  if isinstance e ValueError
  then HTTPException 401 "INVALID_TOKEN"
         ("토큰 갱신에 실패했습니다: " +:+ exc_msg e)
  else HTTPException 500 "INTERNAL_ERROR"
         "토큰 갱신 중 오류가 발생했습니다.".

(** [payload[key]] *)
Definition getitem {A} (key : string) (o : option A) : result A :=
  match o with
  | Some a => Ok a
  | None => Raise (Exc KeyError ("'" +:+ key +:+ "'"))
  end.

(** The user [refresh_token] rebuilds from the verified payload: the
    three lookups, then the construction of [UserWithRole], which
    validates the email and holds its normalised form. *)
Definition user_of_payload (payload : jwt.claims) : result UserWithRole.t :=
  uid ← getitem "sub" (jwt.sub payload);
  email ← getitem "email" (jwt.email payload);
  role ← getitem "role" (jwt.role payload);
  email ← pydantic.validate_email email;
  Ok {| UserWithRole.uid := uid;
        UserWithRole.email := email;
        UserWithRole.name := jwt.name payload;
        UserWithRole.picture := None;
        UserWithRole.email_verified := true;
        UserWithRole.role := role;
        UserWithRole.permissions := default [] (jwt.permissions payload) |}.

(** The clock is read by the verification ([now]) and then by the
    issuance ([now']). *)
Definition refresh_token (s : Settings.t) (now now' : Z)
    (token : jwt.token) : list call * response :=
  match JWTManager.verify_access_token s now token with
  | Raise e => ([CallVerifyAccessToken], refresh_error e)
  | Ok payload =>
      match user_of_payload payload with
      | Raise e => ([CallVerifyAccessToken], refresh_error e)
      | Ok user_with_role =>
          let calls := [CallVerifyAccessToken; CallCreateAccessToken] in
          match JWTManager.create_access_token s now' user_with_role with
          | Ok (new_token, expires_at) =>
              (calls,
               TokenExchangeResponse
                 {| jwt_token := new_token;
                    user := user_with_role;
                    expires_at := expires_at |})
          | Raise e => (calls, refresh_error e)
          end
      end
  end.

(** The [data] object of the [/me] answer. *)
Record CurrentUser : Type := mk_current_user {
  me_uid : option string;
  me_email : option string;
  me_name : option string;
  me_role : option string;
  me_permissions : list string;
  me_expires_at : option Z
}.

Inductive me_response : Type :=
| MeResponse (data : CurrentUser)
| MeHTTPException (status_code : Z) (code : string) (message : string).

Definition me_error (e : exc) : me_response :=
  if isinstance e ValueError
  then if PyStr.contains "expired" (PyStr.lower (exc_msg e))
       then MeHTTPException 401 "TOKEN_EXPIRED"
              "토큰이 만료되었습니다. 다시 로그인해주세요."
       else MeHTTPException 403 "INVALID_TOKEN" "유효하지 않은 토큰입니다."
  else MeHTTPException 500 "INTERNAL_ERROR"
         "사용자 정보를 가져오는 중 오류가 발생했습니다.".

Definition get_current_user (s : Settings.t) (now : Z) (token : jwt.token)
  : list call * me_response :=
  match JWTManager.verify_access_token s now token with
  | Ok payload =>
      ([CallVerifyAccessToken],
       MeResponse
         {| me_uid := jwt.sub payload;
            me_email := jwt.email payload;
            me_name := jwt.name payload;
            me_role := jwt.role payload;
            me_permissions := default [] (jwt.permissions payload);
            me_expires_at := jwt.exp payload |})
  | Raise e => ([CallVerifyAccessToken], me_error e)
  end.

End libraries.

End auth_routes.

(** ** Vocabulary of the specification

    The specification's own wording of role resolution (section 4.2)
    and of its permission table, to compare the code against. *)

Module Spec.

Section casing.

Context {casing : PyStr.Casing}.

(** "email is a member of the admin allow-list", compared
    case-insensitively. *)
Definition on_admin_list (s : Settings.t) (email : string) : Prop :=
  exists admin,
    admin ∈ Settings.ADMIN_EMAILS s /\ PyStr.lower admin = PyStr.lower email.

(** "the email's domain matches the allowed domain": the allowed
    domain is a suffix of the email, case-insensitively. *)
Definition domain_matches (s : Settings.t) (email : string) : Prop :=
  exists local_part,
    PyStr.lower email =
    local_part +:+ PyStr.lower (Settings.ALLOWED_EMAIL_DOMAIN s).

Inductive Role : Set := Admin | Student | Guest.

Definition role_name (r : Role) : string :=
  match r with
  | Admin => "admin"
  | Student => "student"
  | Guest => "guest"
  end.

(** "if email is a member of the admin allow-list, Admin; else if the
    domain matches, Student; else Guest". *)
Inductive resolveRole (s : Settings.t) (email : string) : Role -> Prop :=
| resolve_admin :
    on_admin_list s email -> resolveRole s email Admin
| resolve_student :
    ~ on_admin_list s email -> domain_matches s email ->
    resolveRole s email Student
| resolve_guest :
    ~ on_admin_list s email -> ~ domain_matches s email ->
    resolveRole s email Guest.

End casing.

Definition permissions_of (r : Role) : list string :=
  match r with
  | Admin =>
      [ "read_all_files"; "upload_files"; "delete_files"; "manage_users";
        "view_submissions"; "manage_subjects"; "system_admin" ]
  | Student =>
      [ "read_assigned_files"; "download_files"; "upload_submissions";
        "view_own_submissions" ]
  | Guest => [ "read_public_info" ]
  end.

End Spec.

(** ** Vocabulary for the token lifecycle *)

Module Token.

(** The configured lifetime can be added to the clock reading [now]
    without leaving the range of [datetime]. *)
Definition can_issue (s : Settings.t) (now : Z) : bool :=
  (Z.abs (Settings.ACCESS_TOKEN_EXPIRE_HOURS s / 24) <=? 999999999) &&
  datetime.in_range (now + Settings.ACCESS_TOKEN_EXPIRE_HOURS s * datetime.HOUR).

(** The claim set [create_access_token] signs for [user] at [now]. *)
Definition issued_claims (s : Settings.t) (now : Z) (user : UserWithRole.t)
  : jwt.claims :=
  {| jwt.sub := Some (UserWithRole.uid user);
     jwt.email := Some (UserWithRole.email user);
     jwt.name := UserWithRole.name user;
     jwt.role := Some (UserWithRole.role user);
     jwt.permissions := Some (UserWithRole.permissions user);
     jwt.iat := Some (datetime.int_timestamp now);
     jwt.exp :=
       Some (datetime.int_timestamp
               (now + Settings.ACCESS_TOKEN_EXPIRE_HOURS s * datetime.HOUR));
     jwt.iss := Some "info-class-api";
     jwt.nbf := None;
     jwt.aud := None |}.

(** A token whose signature verifies under the configured secret and
    algorithm. *)
Definition signed (s : Settings.t) (payload : jwt.claims) : jwt.token :=
  jwt.JWS Settings.ALGORITHM (Settings.SECRET_KEY s) payload.

(** The user [refresh_token] issues for: the claims of the token with
    the email as the validator normalised it. *)
Definition refreshed_user (claims : jwt.claims) (uid email role : string)
  : UserWithRole.t :=
  {| UserWithRole.uid := uid;
     UserWithRole.email := email;
     UserWithRole.name := jwt.name claims;
     UserWithRole.picture := None;
     UserWithRole.email_verified := true;
     UserWithRole.role := role;
     UserWithRole.permissions := default [] (jwt.permissions claims) |}.

(** The issued-at claim, when present, is not later than the clock. *)
Definition iat_not_future (now : Z) (payload : jwt.claims) : Prop :=
  forall i, jwt.iat payload = Some i -> i * datetime.MICRO <= now.

(** The not-before claim, when present, is not later than the clock. *)
Definition nbf_not_future (now : Z) (payload : jwt.claims) : Prop :=
  forall n, jwt.nbf payload = Some n -> n * datetime.MICRO <= now.

(** The instants from the epoch up to 2^34 seconds after it (into the
    year 2514): for them the float [d.timestamp()] has the whole
    seconds of [d], so that [int(d.timestamp())] is
    [datetime.int_timestamp d]. *)
Definition float_exact (d : Z) : Prop := 0 <= d < 2 ^ 34 * datetime.MICRO.

(** The error [verify_access_token] raises for an expired token. *)
Definition expired_error : exc := Exc ValueError "Token has expired".

End Token.

(** ** Vocabulary for identity validation *)

Module Identity.

(** The identity provider rejects the raw token with one of the
    errors [verify_id_token] documents: invalid (malformed), expired
    or revoked. *)
Definition rejected (r : result DecodedToken.t) : Prop :=
  exists e,
    r = Raise e /\
    exc_cls e ∈ [InvalidIdTokenError; ExpiredIdTokenError;
                 RevokedIdTokenError].

Section casing.

Context {casing : PyStr.Casing}.

(** The error code the exchange route gives a failed validation. *)
Definition failure_code (r : result UserInfo.t) : option string :=
  match r with
  | Ok _ => None
  | Raise e =>
      match auth_routes.exchange_error e with
      | auth_routes.HTTPException _ code _ => Some code
      | auth_routes.TokenExchangeResponse _ => None
      end
  end.

Definition domain_allowed (s : Settings.t) (d : DecodedToken.t) : bool :=
  Settings.is_allowed_domain s (default "" (DecodedToken.email d)).

End casing.

Definition has_uid (d : DecodedToken.t) : bool :=
  negb (PyStr.falsy (DecodedToken.uid d)).

Definition has_email (d : DecodedToken.t) : bool :=
  negb (PyStr.falsy (DecodedToken.email d)).

(** [decoded_token.get('email_verified', False)] *)
Definition verified (d : DecodedToken.t) : bool :=
  default false (DecodedToken.email_verified d).

Definition value_error (msg : string) : result UserInfo.t :=
  Raise (Exc ValueError msg).

End Identity.
(** * Properties *)

(** The examples that follow the theorems are evaluated with the ASCII
    folding and with the sample validator. *)
#[local] Existing Instance PyStr.ascii_casing.
#[local] Existing Instance pydantic.sample_validator.

(** ** Strings *)

Section strings.

Context {casing : PyStr.Casing}.

Lemma lower_idem s : PyStr.lower (PyStr.lower s) = PyStr.lower s.
Proof. apply PyStr.lower_idem. Qed.

Lemma append_nil_r s : s +:+ "" = s.
Proof.
  induction s as [|c s IH]; [done|].
  change (String c (s +:+ "") = String c s). by rewrite IH.
Qed.

(** On ASCII text [str.lower] is the folding of A-Z. *)
Lemma lower_closed p :
  PyStr.is_ascii p = true -> PyStr.lower p = PyStr.ascii_lower p.
Proof.
  intros Hp. destruct (PyStr.lower_ascii_prefix p "" Hp) as (m' & H & Hm).
  rewrite append_nil_r in H. by rewrite H, (Hm eq_refl), append_nil_r.
Qed.

Lemma prefix_app p t : String.prefix p (p +:+ t) = true.
Proof.
  induction p as [|c p IH]; simpl; [by destruct t|].
  by destruct (ascii_dec c c).
Qed.

Lemma prefix_app_r a b t :
  String.prefix a b = true -> String.prefix a (b +:+ t) = true.
Proof.
  revert b. induction a as [|c a IH]; intros [|c' b]; simpl; try done.
  - by destruct t.
  - destruct (ascii_dec c c'); [apply IH|done].
Qed.

Lemma contains_cons sub c p :
  PyStr.contains sub (String c p) =
  String.prefix sub (String c p) || PyStr.contains sub p.
Proof. reflexivity. Qed.

Lemma contains_app_r sub p t :
  PyStr.contains sub p = true -> PyStr.contains sub (p +:+ t) = true.
Proof.
  induction p as [|c p IH].
  - destruct sub as [|c sub]; [|done]. intros _. by destruct t.
  - change (String c p +:+ t) with (String c (p +:+ t)).
    rewrite !contains_cons. intros [H|H]%orb_true_iff.
    + apply (prefix_app_r _ _ t) in H.
      change (String c p +:+ t) with (String c (p +:+ t)) in H.
      by rewrite H.
    + rewrite (IH H). apply orb_true_r.
Qed.

(** A word found in the folding of an ASCII prefix of a message is
    found in the lower-cased message. *)
Lemma contains_lower_prefix word p m :
  PyStr.is_ascii p = true ->
  PyStr.contains word (PyStr.ascii_lower p) = true ->
  PyStr.contains word (PyStr.lower (p +:+ m)) = true.
Proof.
  intros Hp Hw. destruct (PyStr.lower_ascii_prefix p m Hp) as (m' & -> & _).
  by apply contains_app_r.
Qed.

Lemma endswith_nil suffix : PyStr.endswith "" suffix = String.eqb "" suffix.
Proof. unfold PyStr.endswith. apply orb_false_r. Qed.

Lemma endswith_cons c s suffix :
  PyStr.endswith (String c s) suffix =
  String.eqb (String c s) suffix || PyStr.endswith s suffix.
Proof. reflexivity. Qed.

Lemma endswith_spec s suffix :
  PyStr.endswith s suffix = true <-> exists pre, s = pre +:+ suffix.
Proof.
  induction s as [|c s IH].
  - rewrite endswith_nil, String.eqb_eq. split.
    + intros <-. by exists "".
    + intros [[|c pre] H]; simpl in H; [done|discriminate].
  - rewrite endswith_cons, orb_true_iff, String.eqb_eq, IH. split.
    + intros [<-|[pre ->]]; [by exists ""|by exists (String c pre)].
    + intros [[|c' pre] H]; simpl in H; [by left|].
      injection H as -> ->. right. by exists pre.
Qed.

End strings.

(** Rewrites [str.lower] of ASCII literals into the folding of A-Z. *)
Ltac lower_closed :=
  repeat match goal with
         | |- context [PyStr.lower ?p] =>
             rewrite (lower_closed p) by reflexivity
         end.

(** ** Role resolution and the admin allow-list *)

Section roles.

Context {casing : PyStr.Casing}.
Variable s : Settings.t.

Lemma is_admin_email_spec email :
  Settings.is_admin_email s email = true <-> Spec.on_admin_list s email.
Proof.
  unfold Settings.is_admin_email, Spec.on_admin_list.
  rewrite bool_decide_eq_true, list_elem_of_fmap.
  split; intros (a & H1 & H2); exists a; by split.
Qed.

Lemma is_admin_email_lower email :
  Settings.is_admin_email s (PyStr.lower email) = Settings.is_admin_email s email.
Proof. unfold Settings.is_admin_email. by rewrite lower_idem. Qed.

Lemma is_allowed_domain_spec email :
  Settings.is_allowed_domain s email = true <-> Spec.domain_matches s email.
Proof. apply endswith_spec. Qed.

Lemma is_allowed_domain_lower email :
  Settings.is_allowed_domain s (PyStr.lower email) = Settings.is_allowed_domain s email.
Proof. unfold Settings.is_allowed_domain. by rewrite lower_idem. Qed.

Lemma determine_user_role_cases user :
  RoleManager.determine_user_role s user =
  if Settings.is_admin_email s (UserInfo.email user) then UserRole.ADMIN
  else if Settings.is_allowed_domain s (UserInfo.email user)
       then UserRole.STUDENT else UserRole.GUEST.
Proof.
  unfold RoleManager.determine_user_role.
  by rewrite is_admin_email_lower, is_allowed_domain_lower.
Qed.

Lemma resolveRole_functional email r r' :
  Spec.resolveRole s email r -> Spec.resolveRole s email r' -> r = r'.
Proof. intros H H'; inversion H; inversion H'; subst; tauto. Qed.

End roles.

(** C4. Role resolution is total: Admin for an email on the admin
    allow-list up to case, Student for any other email whose domain
    matches the allowed domain, Guest for the rest; the three cases are
    exhaustive and exclusive, and each role has its fixed permission
    list of 7, 4 and 1 entries. *)
Theorem C4_role_resolution {casing : PyStr.Casing} (s : Settings.t)
    (user : UserInfo.t) :
  (exists r : Spec.Role,
      RoleManager.determine_user_role s user = Spec.role_name r /\
      Spec.resolveRole s (UserInfo.email user) r /\
      (forall r', Spec.resolveRole s (UserInfo.email user) r' -> r' = r) /\
      UserWithRole.role (RoleManager.create_user_with_role s user)
        = Spec.role_name r /\
      UserWithRole.permissions (RoleManager.create_user_with_role s user)
        = Spec.permissions_of r) /\
  (forall r, RoleManager.get_role_permissions (Spec.role_name r)
             = Spec.permissions_of r) /\
  length (Spec.permissions_of Spec.Admin) = 7%nat /\
  length (Spec.permissions_of Spec.Student) = 4%nat /\
  length (Spec.permissions_of Spec.Guest) = 1%nat.
Proof.
  assert (Hperm : forall r, RoleManager.get_role_permissions (Spec.role_name r)
                            = Spec.permissions_of r) by (by intros []).
  split; [|by repeat split].
  pose proof (is_admin_email_spec s (UserInfo.email user)) as Ha.
  pose proof (is_allowed_domain_spec s (UserInfo.email user)) as Hd.
  unfold RoleManager.create_user_with_role; simpl.
  rewrite determine_user_role_cases.
  destruct (Settings.is_admin_email s (UserInfo.email user)) eqn:Ea.
  - assert (Spec.resolveRole s (UserInfo.email user) Spec.Admin) as Hr
      by (constructor; by apply Ha).
    exists Spec.Admin. repeat split; try done.
    intros r' Hr'. eapply resolveRole_functional; eauto.
  - assert (~ Spec.on_admin_list s (UserInfo.email user)) as Hna
      by (rewrite <- Ha; congruence).
    destruct (Settings.is_allowed_domain s (UserInfo.email user)) eqn:Ed.
    + assert (Spec.resolveRole s (UserInfo.email user) Spec.Student) as Hr
        by (constructor; [done|by apply Hd]).
      exists Spec.Student. repeat split; try done.
      intros r' Hr'. eapply resolveRole_functional; eauto.
    + assert (Spec.resolveRole s (UserInfo.email user) Spec.Guest) as Hr
        by (constructor; [done|rewrite <- Hd; congruence]).
      exists Spec.Guest. repeat split; try done.
      intros r' Hr'. eapply resolveRole_functional; eauto.
Qed.

Lemma C4_role_resolution_witness :
  let s := Settings.from_env false "secret" 24 in
  RoleManager.determine_user_role s
    (UserInfo.mk "u1" "Admin@Pocheonil.HS.kr" None None true) = "admin" /\
  RoleManager.determine_user_role s
    (UserInfo.mk "u2" "student@pocheonil.hs.kr" None None true) = "student" /\
  RoleManager.determine_user_role s
    (UserInfo.mk "u3" "outsider@other.example" None None true) = "guest".
Proof.
  intros s.
  destruct (C4_role_resolution s
              (UserInfo.mk "u1" "Admin@Pocheonil.HS.kr" None None true))
    as [(r1 & H1 & _ & U1 & _) _].
  destruct (C4_role_resolution s
              (UserInfo.mk "u2" "student@pocheonil.hs.kr" None None true))
    as [(r2 & H2 & _ & U2 & _) _].
  destruct (C4_role_resolution s
              (UserInfo.mk "u3" "outsider@other.example" None None true))
    as [(r3 & H3 & _ & U3 & _) _].
  assert (Spec.Admin = r1) as <-.
  { apply U1, Spec.resolve_admin. exists "admin@pocheonil.hs.kr".
    split; [apply list_elem_of_here|done]. }
  assert (Spec.Student = r2) as <-.
  { apply U2, Spec.resolve_student.
    - intros (a & Ha & Hl). apply list_elem_of_singleton in Ha as ->.
      discriminate Hl.
    - by apply is_allowed_domain_spec. }
  assert (Spec.Guest = r3) as <-.
  { apply U3, Spec.resolve_guest.
    - intros (a & Ha & Hl). apply list_elem_of_singleton in Ha as ->.
      discriminate Hl.
    - intros Hd%is_allowed_domain_spec. discriminate Hd. }
  by rewrite H1, H2, H3.
Defined.

(** ** The admin allow-list operations *)

Section allow_list.

Lemma find_split {A} (f : A -> bool) l a :
  List.find f l = Some a ->
  exists l1 l2, l = (l1 ++ a :: l2)%list /\ f a = true /\
                forall x, x ∈ l1 -> f x = false.
Proof.
  induction l as [|y l IH]; simpl; [done|].
  destruct (f y) eqn:Ey.
  - intros [= ->]. exists [], l. repeat split; [done|]. by intros x ?%elem_of_nil.
  - intros (l1 & l2 & -> & Ha & Hl1)%IH.
    exists (y :: l1), l2. repeat split; [done|].
    intros x [->|?]%elem_of_cons; auto.
Qed.

Lemma find_none_elem {A} (f : A -> bool) l :
  List.find f l = None <-> forall x, x ∈ l -> f x = false.
Proof.
  induction l as [|y l IH]; simpl.
  - split; [by intros _ x ?%elem_of_nil|done].
  - destruct (f y) eqn:Ey.
    + split; [done|]. intros H. specialize (H y (list_elem_of_here _ _)). congruence.
    + rewrite IH. split.
      * intros H x [->|?]%elem_of_cons; auto.
      * intros H x Hx. apply H. by right.
Qed.

Lemma list_remove_first x l1 l2 :
  (forall y, y ∈ l1 -> y <> x) ->
  RoleManager.list_remove x (l1 ++ x :: l2) = Some (l1 ++ l2)%list.
Proof.
  induction l1 as [|y l1 IH]; simpl; intros H.
  - by rewrite String.eqb_refl.
  - destruct (String.eqb_spec y x) as [->|_].
    + by destruct (H x (list_elem_of_here _ _)).
    + rewrite IH; [done|]. intros z Hz. apply H. by right.
Qed.

Context {casing : PyStr.Casing}.
Variable s : Settings.t.

Lemma add_admin_email_present email :
  Spec.on_admin_list s email -> RoleManager.add_admin_email email s = s.
Proof.
  intros H%is_admin_email_spec. unfold RoleManager.add_admin_email.
  unfold Settings.is_admin_email in H. by rewrite H.
Qed.

Lemma add_admin_email_absent email :
  ~ Spec.on_admin_list s email ->
  RoleManager.add_admin_email email s =
  Settings.set_ADMIN_EMAILS (Settings.ADMIN_EMAILS s ++ [PyStr.lower email])%list s.
Proof.
  rewrite <- is_admin_email_spec. intros H%not_true_is_false.
  unfold RoleManager.add_admin_email.
  unfold Settings.is_admin_email in H. by rewrite H.
Qed.

Lemma add_admin_email_member email email' :
  PyStr.lower email' = PyStr.lower email ->
  Settings.is_admin_email (RoleManager.add_admin_email email s) email' = true.
Proof.
  intros Heq. destruct (Settings.is_admin_email s email) eqn:E.
  - rewrite add_admin_email_present by by apply is_admin_email_spec.
    unfold Settings.is_admin_email in *. by rewrite Heq.
  - rewrite add_admin_email_absent
      by (rewrite <- is_admin_email_spec; congruence).
    unfold Settings.is_admin_email; simpl.
    rewrite bool_decide_eq_true, fmap_app, elem_of_app. right.
    simpl. rewrite lower_idem, Heq. apply list_elem_of_here.
Qed.

Lemma remove_admin_email_present email :
  Spec.on_admin_list s email ->
  exists l1 admin l2,
    Settings.ADMIN_EMAILS s = (l1 ++ admin :: l2)%list /\
    PyStr.lower admin = PyStr.lower email /\
    (forall x, x ∈ l1 -> PyStr.lower x <> PyStr.lower email) /\
    RoleManager.remove_admin_email email s =
      (Settings.set_ADMIN_EMAILS (l1 ++ l2)%list s, true).
Proof.
  intros (a & Ha & Heq). unfold RoleManager.remove_admin_email.
  destruct (List.find _ _) as [admin|] eqn:Hf.
  - apply find_split in Hf as (l1 & l2 & Hl & Hadm%String.eqb_eq & Hl1).
    exists l1, admin, l2. repeat split; [done..| |].
    + intros x Hx. specialize (Hl1 x Hx). by apply String.eqb_neq in Hl1.
    + rewrite Hl, list_remove_first; [done|].
      intros y Hy ->. specialize (Hl1 admin Hy).
      apply String.eqb_neq in Hl1. by apply Hl1.
  - rewrite find_none_elem in Hf. specialize (Hf a Ha).
    by apply String.eqb_neq in Hf.
Qed.

Lemma remove_admin_email_absent email :
  ~ Spec.on_admin_list s email ->
  RoleManager.remove_admin_email email s = (s, false).
Proof.
  intros H. unfold RoleManager.remove_admin_email.
  destruct (List.find _ _) as [admin|] eqn:Hf; [|done].
  apply find_split in Hf as (l1 & l2 & Hl & Hadm%String.eqb_eq & _).
  destruct H. exists admin. split; [|done].
  rewrite Hl, elem_of_app. right. apply list_elem_of_here.
Qed.

Lemma remove_admin_email_gone email :
  NoDup (PyStr.lower <$> Settings.ADMIN_EMAILS s) ->
  Settings.is_admin_email (RoleManager.remove_admin_email email s).1 email
    = false.
Proof.
  intros Hnd. destruct (Settings.is_admin_email s email) eqn:E.
  - apply is_admin_email_spec, remove_admin_email_present in E
      as (l1 & a & l2 & Hl & Heq & _ & ->).
    simpl. unfold Settings.is_admin_email; simpl.
    apply bool_decide_eq_false.
    rewrite Hl, fmap_app, fmap_cons in Hnd.
    apply NoDup_app in Hnd as (_ & H1 & [H2 _]%NoDup_cons).
    rewrite fmap_app, elem_of_app, <- Heq. intros [H|H]; [|done].
    apply (H1 _ H), list_elem_of_here.
  - rewrite remove_admin_email_absent; [done|].
    rewrite <- is_admin_email_spec. congruence.
Qed.

Lemma allow_list_case_insensitive email email' :
  PyStr.lower email' = PyStr.lower email ->
  Settings.is_admin_email s email' = Settings.is_admin_email s email /\
  RoleManager.add_admin_email email' s = RoleManager.add_admin_email email s /\
  RoleManager.remove_admin_email email' s
    = RoleManager.remove_admin_email email s.
Proof.
  intros Heq.
  unfold Settings.is_admin_email, RoleManager.add_admin_email,
    RoleManager.remove_admin_email.
  by rewrite Heq.
Qed.

End allow_list.

(** C9. The allow-list operations compare emails up to case.  Adding an
    email that is on the list leaves the settings unchanged; adding one
    that is not appends its lower-cased form; after adding, every
    casing of the email is a member.  Removing an email on the list
    drops the first entry that equals it up to case and returns true,
    after which, on a list without case-insensitive duplicates, it is
    no longer a member; removing an absent email changes nothing and
    returns false. *)
Theorem C9_admin_allow_list {casing : PyStr.Casing} (s : Settings.t)
    (email : string) :
  (Spec.on_admin_list s email -> RoleManager.add_admin_email email s = s) /\
  (~ Spec.on_admin_list s email ->
   Settings.ADMIN_EMAILS (RoleManager.add_admin_email email s)
     = (Settings.ADMIN_EMAILS s ++ [PyStr.lower email])%list) /\
  (forall email', PyStr.lower email' = PyStr.lower email ->
     Settings.is_admin_email (RoleManager.add_admin_email email s) email'
       = true) /\
  (Spec.on_admin_list s email ->
   exists l1 admin l2,
     Settings.ADMIN_EMAILS s = (l1 ++ admin :: l2)%list /\
     PyStr.lower admin = PyStr.lower email /\
     (forall x, x ∈ l1 -> PyStr.lower x <> PyStr.lower email) /\
     RoleManager.remove_admin_email email s =
       (Settings.set_ADMIN_EMAILS (l1 ++ l2)%list s, true)) /\
  (NoDup (PyStr.lower <$> Settings.ADMIN_EMAILS s) ->
   Settings.is_admin_email (RoleManager.remove_admin_email email s).1 email
     = false) /\
  (~ Spec.on_admin_list s email ->
   RoleManager.remove_admin_email email s = (s, false)) /\
  (forall email', PyStr.lower email' = PyStr.lower email ->
     Settings.is_admin_email s email' = Settings.is_admin_email s email /\
     RoleManager.add_admin_email email' s
       = RoleManager.add_admin_email email s /\
     RoleManager.remove_admin_email email' s
       = RoleManager.remove_admin_email email s).
Proof.
  split; [apply add_admin_email_present|].
  split; [intros H; by rewrite add_admin_email_absent|].
  split; [intros; by apply add_admin_email_member|].
  split; [apply remove_admin_email_present|].
  split; [apply remove_admin_email_gone|].
  split; [apply remove_admin_email_absent|].
  intros; by apply allow_list_case_insensitive.
Qed.

Lemma C9_admin_allow_list_witness :
  let s := Settings.from_env false "secret" 24 in
  RoleManager.add_admin_email "ADMIN@pocheonil.hs.kr" s = s /\
  Settings.is_admin_email
    (RoleManager.add_admin_email "Teacher@Pocheonil.hs.kr" s)
    "TEACHER@pocheonil.hs.kr" = true /\
  RoleManager.remove_admin_email "ghost@pocheonil.hs.kr" s = (s, false) /\
  Settings.is_admin_email
    (RoleManager.remove_admin_email "Admin@Pocheonil.hs.kr" s).1
    "Admin@Pocheonil.hs.kr" = false.
Proof.
  intros s.
  destruct (C9_admin_allow_list s "ADMIN@pocheonil.hs.kr") as (Hadd & _).
  destruct (C9_admin_allow_list s "Teacher@Pocheonil.hs.kr")
    as (_ & _ & Hmem & _).
  destruct (C9_admin_allow_list s "ghost@pocheonil.hs.kr")
    as (_ & _ & _ & _ & _ & Habs & _).
  destruct (C9_admin_allow_list s "Admin@Pocheonil.hs.kr")
    as (_ & _ & _ & _ & Hgone & _).
  split; [|split; [|split]].
  - apply Hadd. exists "admin@pocheonil.hs.kr".
    split; [apply list_elem_of_here|done].
  - by apply Hmem.
  - apply Habs. intros (a & Ha & Hl).
    apply list_elem_of_singleton in Ha as ->. discriminate Hl.
  - apply Hgone. simpl. apply NoDup_singleton.
Defined.

(** ** Issuing and verifying session tokens *)

Ltac bind_simpl := cbn [mbind result_bind Py.bind negb].

Section tokens.

Variable s : Settings.t.

Lemma create_access_token_ok now user :
  Token.can_issue s now = true ->
  JWTManager.create_access_token s now user =
  Ok (Token.signed s (Token.issued_claims s now user),
      now + Settings.ACCESS_TOKEN_EXPIRE_HOURS s * datetime.HOUR).
Proof.
  unfold Token.can_issue. intros [H1 H2]%andb_true_iff.
  unfold JWTManager.create_access_token, datetime.timedelta_hours.
  rewrite H1; simpl. unfold datetime.add. by rewrite H2.
Qed.

Lemma create_access_token_inv now user tok expires_at :
  JWTManager.create_access_token s now user = Ok (tok, expires_at) ->
  Token.can_issue s now = true /\
  tok = Token.signed s (Token.issued_claims s now user) /\
  expires_at = now + Settings.ACCESS_TOKEN_EXPIRE_HOURS s * datetime.HOUR.
Proof.
  destruct (Token.can_issue s now) eqn:E.
  - rewrite create_access_token_ok by done. by intros [= <- <-].
  - unfold Token.can_issue in E.
    unfold JWTManager.create_access_token, datetime.timedelta_hours.
    destruct (Z.abs _ <=? _); simpl in *; [|done].
    unfold datetime.add. by rewrite E.
Qed.

(** The checks of [validate_claims], one after the other. *)
Lemma validate_claims_cases now p :
  jwt.validate_claims now p =
  if match jwt.iat p with
     | Some i => now <? i * datetime.MICRO | None => false end
  then Raise (Exc ImmatureSignatureError "The token is not yet valid (iat)")
  else if match jwt.nbf p with
          | Some n => now <? n * datetime.MICRO | None => false end
  then Raise (Exc ImmatureSignatureError "The token is not yet valid (nbf)")
  else if match jwt.exp p with
          | Some e => e * datetime.MICRO <=? now | None => false end
  then Raise (Exc ExpiredSignatureError "Signature has expired")
  else if jwt.no_audience p then Ok p
  else Raise (Exc InvalidAudienceError "Invalid audience").
Proof.
  unfold jwt.validate_claims.
  destruct (jwt.iat p) as [i|]; [destruct (now <? _)|]; bind_simpl; try done;
    (destruct (jwt.nbf p) as [n|]; [destruct (now <? _)|]; bind_simpl;
     try done);
    (destruct (jwt.exp p) as [e|]; [destruct (_ <=? now)|]; bind_simpl;
     try done);
    by destruct (jwt.no_audience p).
Qed.

Lemma not_future_ltb now (o : option Z) :
  (forall i, o = Some i -> i * datetime.MICRO <= now) <->
  match o with
  | Some i => now <? i * datetime.MICRO | None => false end = false.
Proof.
  destruct o as [i|]; [|done]. rewrite Z.ltb_ge. split.
  - intros H. by apply H.
  - by intros H ? [= <-].
Qed.

Lemma not_expired_leb now (o : option Z) :
  (forall e, o = Some e -> now < e * datetime.MICRO) <->
  match o with
  | Some e => e * datetime.MICRO <=? now | None => false end = false.
Proof.
  destruct o as [e|]; [|done]. rewrite Z.leb_gt. split.
  - intros H. by apply H.
  - by intros H ? [= <-].
Qed.

Lemma validate_claims_inv now p q :
  jwt.validate_claims now p = Ok q ->
  q = p /\ Token.iat_not_future now p /\ Token.nbf_not_future now p /\
  (forall e, jwt.exp p = Some e -> now < e * datetime.MICRO) /\
  jwt.no_audience p = true.
Proof.
  rewrite validate_claims_cases.
  unfold Token.iat_not_future, Token.nbf_not_future.
  rewrite !not_future_ltb, not_expired_leb.
  destruct (match jwt.iat p with Some _ => _ | None => _ end); [done|].
  destruct (match jwt.nbf p with Some _ => _ | None => _ end); [done|].
  destruct (match jwt.exp p with Some _ => _ | None => _ end); [done|].
  destruct (jwt.no_audience p); [|done]. by intros [= <-].
Qed.

Lemma validate_claims_ok now p :
  Token.iat_not_future now p -> Token.nbf_not_future now p ->
  (forall e, jwt.exp p = Some e -> now < e * datetime.MICRO) ->
  jwt.no_audience p = true ->
  jwt.validate_claims now p = Ok p.
Proof.
  unfold Token.iat_not_future, Token.nbf_not_future.
  rewrite !not_future_ltb, not_expired_leb, validate_claims_cases.
  by intros -> -> -> ->.
Qed.

Lemma validate_claims_expired now p e :
  Token.iat_not_future now p -> Token.nbf_not_future now p ->
  jwt.exp p = Some e -> e * datetime.MICRO <= now ->
  jwt.validate_claims now p =
  Raise (Exc ExpiredSignatureError "Signature has expired").
Proof.
  unfold Token.iat_not_future, Token.nbf_not_future.
  rewrite !not_future_ltb, validate_claims_cases.
  intros -> -> -> He. by rewrite (proj2 (Z.leb_le _ _) He).
Qed.

Lemma validate_claims_fails_expired now p e :
  jwt.exp p = Some e -> e * datetime.MICRO <= now ->
  Py.is_ok (jwt.validate_claims now p) = false.
Proof.
  intros He Hle. destruct (jwt.validate_claims now p) eqn:E; [|done].
  apply validate_claims_inv in E as (_ & _ & _ & H & _).
  specialize (H e He). lia.
Qed.

Lemma decode_signed now p :
  jwt.decode now (Token.signed s p) (Settings.SECRET_KEY s)
    [Settings.ALGORITHM] = jwt.validate_claims now p.
Proof. unfold jwt.decode, Token.signed. by rewrite String.eqb_refl. Qed.

Lemma decode_inv now tok key algorithms p :
  jwt.decode now tok key algorithms = Ok p ->
  exists alg, tok = jwt.JWS alg key p /\ alg ∈ algorithms /\
              jwt.validate_claims now p = Ok p.
Proof.
  destruct tok as [raw|alg k q]; simpl; [done|].
  case_bool_decide; simpl; [|done].
  destruct (String.eqb_spec k key) as [->|]; simpl; [|done].
  intros Hv. pose proof Hv as (-> & _)%validate_claims_inv. by exists alg.
Qed.

(** The body of [verify_access_token] after a successful decode. *)
Lemma verify_access_token_signed now p :
  jwt.validate_claims now p = Ok p ->
  JWTManager.verify_access_token s now (Token.signed s p) =
  match List.find (fun claim => negb (jwt.has_claim claim p))
          JWTManager.required_claims with
  | Some claim =>
      Raise (Exc ValueError
               ("Token verification failed: Missing required claim: "
                +:+ claim))
  | None =>
      if bool_decide (jwt.iss p = Some JWTManager.ISSUER) then Ok p
      else Raise (Exc ValueError
                    "Token verification failed: Invalid token issuer")
  end.
Proof.
  intros H. unfold JWTManager.verify_access_token.
  rewrite decode_signed, H. bind_simpl.
  destruct (List.find _ _); bind_simpl; [done|].
  by case_bool_decide.
Qed.

Lemma verify_access_token_raises_ValueError now tok e :
  JWTManager.verify_access_token s now tok = Raise e ->
  exc_cls e = ValueError.
Proof.
  unfold JWTManager.verify_access_token.
  destruct (_ ≫= _) as [p|e']; [done|].
  destruct (isinstance e' ExpiredSignatureError); [by intros [= <-]|].
  destruct (isinstance e' InvalidTokenError); by intros [= <-].
Qed.

Lemma verify_access_token_inv now tok p :
  JWTManager.verify_access_token s now tok = Ok p ->
  tok = Token.signed s p /\
  jwt.validate_claims now p = Ok p /\
  (forall claim, claim ∈ JWTManager.required_claims ->
                 jwt.has_claim claim p = true) /\
  jwt.iss p = Some JWTManager.ISSUER.
Proof.
  unfold JWTManager.verify_access_token.
  destruct (jwt.decode _ _ _ _) as [q|e] eqn:Hd; bind_simpl.
  - apply decode_inv in Hd as (alg & -> & ->%list_elem_of_singleton & Hv).
    destruct (List.find _ _) eqn:Hf; bind_simpl; [done|].
    case_bool_decide as Hi; bind_simpl; [|done].
    intros [= <-]. repeat split; [done| |done].
    rewrite find_none_elem in Hf. intros claim Hc.
    specialize (Hf claim Hc). by apply negb_false_iff in Hf.
  - destruct (isinstance e ExpiredSignatureError); [done|].
    by destruct (isinstance e InvalidTokenError).
Qed.

Lemma verify_access_token_ok now p :
  jwt.validate_claims now p = Ok p ->
  (forall claim, claim ∈ JWTManager.required_claims ->
                 jwt.has_claim claim p = true) ->
  jwt.iss p = Some JWTManager.ISSUER ->
  JWTManager.verify_access_token s now (Token.signed s p) = Ok p.
Proof.
  intros Hv Hr Hi. rewrite verify_access_token_signed by done.
  destruct (List.find _ _) as [claim|] eqn:Hf.
  - apply find_split in Hf as (l1 & l2 & Hl & Hc%negb_true_iff & _).
    rewrite Hr in Hc; [done|]. rewrite Hl, elem_of_app. right.
    apply list_elem_of_here.
  - by rewrite bool_decide_eq_true_2.
Qed.

Lemma verify_access_token_expired now p e :
  Token.iat_not_future now p -> Token.nbf_not_future now p ->
  jwt.exp p = Some e -> e * datetime.MICRO <= now ->
  JWTManager.verify_access_token s now (Token.signed s p) =
  Raise Token.expired_error.
Proof.
  intros Hi Hn He Hle. unfold JWTManager.verify_access_token.
  by rewrite decode_signed, (validate_claims_expired now p e).
Qed.

Lemma verify_access_token_fails_expired now tok p e :
  jwt.decode_unverified tok = Ok p ->
  jwt.exp p = Some e -> e * datetime.MICRO <= now ->
  Py.is_ok (JWTManager.verify_access_token s now tok) = false.
Proof.
  intros Hd He Hle.
  destruct (JWTManager.verify_access_token s now tok) as [q|] eqn:E; [|done].
  apply verify_access_token_inv in E as (-> & Hv & _).
  injection Hd as ->.
  pose proof (validate_claims_fails_expired now p e He Hle) as H.
  by rewrite Hv in H.
Qed.

Lemma issued_claims_valid now now_v user :
  0 <= now <= now_v ->
  now_v < datetime.int_timestamp
            (now + Settings.ACCESS_TOKEN_EXPIRE_HOURS s * datetime.HOUR)
          * datetime.MICRO ->
  jwt.validate_claims now_v (Token.issued_claims s now user)
    = Ok (Token.issued_claims s now user).
Proof.
  intros Hn He. apply validate_claims_ok; [|done| |done].
  - intros i [= <-]. unfold datetime.int_timestamp, datetime.MICRO.
    pose proof (Z.quot_rem' now 1000000).
    pose proof (Z.rem_bound_pos now 1000000). lia.
  - by intros e [= <-].
Qed.

End tokens.

(** C1. Round trip: whenever the configured lifetime can be added to
    the clock, a token is issued for the user, and verifying it at any
    later time before its expiry succeeds with claims that carry the
    user's id, email, role and permission list unchanged. *)
Theorem C1_round_trip (s : Settings.t) (u : UserWithRole.t) (now : Z) :
  Token.can_issue s now = true ->
  exists tok expires_at,
    JWTManager.create_access_token s now u = Ok (tok, expires_at) /\
    forall now_v,
      0 <= now <= now_v ->
      now_v < datetime.int_timestamp expires_at * datetime.MICRO ->
      exists claims,
        JWTManager.verify_access_token s now_v tok = Ok claims /\
        jwt.sub claims = Some (UserWithRole.uid u) /\
        jwt.email claims = Some (UserWithRole.email u) /\
        jwt.role claims = Some (UserWithRole.role u) /\
        jwt.permissions claims = Some (UserWithRole.permissions u).
Proof.
  intros Hc. eexists _, _. split; [by apply create_access_token_ok|].
  intros now_v Hn He. exists (Token.issued_claims s now u).
  split; [|done].
  apply verify_access_token_ok; [by apply issued_claims_valid| |done].
  intros claim Hin. unfold JWTManager.required_claims in Hin.
  repeat (apply elem_of_cons in Hin as [->|Hin]; [done|]).
  by apply elem_of_nil in Hin.
Qed.

Lemma C1_round_trip_witness :
  let s := Settings.from_env false "secret" 24 in
  let u := RoleManager.create_user_with_role s
             (UserInfo.mk "u1" "teacher@pocheonil.hs.kr" None None true) in
  exists tok expires_at claims,
    JWTManager.create_access_token s 1700000000000000 u = Ok (tok, expires_at) /\
    JWTManager.verify_access_token s 1700000000000001 tok = Ok claims /\
    jwt.sub claims = Some "u1" /\
    jwt.role claims = Some "student".
Proof.
  intros s u.
  destruct (C1_round_trip s u 1700000000000000 eq_refl)
    as (tok & expires_at & Hc & Hv).
  pose proof Hc as Hc'. vm_compute in Hc'. injection Hc' as <- <-.
  destruct (Hv 1700000000000001) as (claims & H1 & H2 & _ & H3 & _);
    [lia|by vm_compute|].
  eexists _, _, claims. split; [exact Hc|]. by repeat split.
Defined.

(** C2, as the code has it.  A token that is issued expires exactly the
    configured number of hours after the clock reading it was issued
    at; when both instants lie between the epoch and 2^34 seconds after
    it, the issued-at and expiry claims are their whole seconds and
    differ by that many hours.  For a token whose signature verifies
    and whose issued-at and not-before claims are not in the future,
    verification raises the expired-token error once the clock has
    reached the expiry, and succeeds before the expiry when the five
    required claims are present, the issuer is the expected one and
    the token names no audience.  For any token at all, verification
    fails once the clock has reached the expiry its payload carries. *)
Theorem C2_expiry (s : Settings.t) :
  (forall now u tok expires_at,
      JWTManager.create_access_token s now u = Ok (tok, expires_at) ->
      expires_at = now + Settings.ACCESS_TOKEN_EXPIRE_HOURS s * datetime.HOUR /\
      exists p, tok = Token.signed s p /\
        (Token.float_exact now -> Token.float_exact expires_at ->
         jwt.iat p = Some (datetime.int_timestamp now) /\
         jwt.exp p = Some (datetime.int_timestamp expires_at) /\
         datetime.int_timestamp expires_at =
         datetime.int_timestamp now
         + 3600 * Settings.ACCESS_TOKEN_EXPIRE_HOURS s)) /\
  (forall now p e,
      jwt.exp p = Some e ->
      Token.iat_not_future now p -> Token.nbf_not_future now p ->
      (e * datetime.MICRO <= now ->
       JWTManager.verify_access_token s now (Token.signed s p)
         = Raise Token.expired_error) /\
      (now < e * datetime.MICRO ->
       (forall claim, claim ∈ JWTManager.required_claims ->
                      jwt.has_claim claim p = true) ->
       jwt.iss p = Some JWTManager.ISSUER ->
       jwt.no_audience p = true ->
       JWTManager.verify_access_token s now (Token.signed s p) = Ok p)) /\
  (forall now tok p e,
      jwt.decode_unverified tok = Ok p ->
      jwt.exp p = Some e -> e * datetime.MICRO <= now ->
      Py.is_ok (JWTManager.verify_access_token s now tok) = false).
Proof.
  split; [|split].
  - intros now u tok expires_at (_ & -> & ->)%create_access_token_inv.
    split; [done|]. eexists. split; [done|].
    intros [Hn _] [Hx _]. repeat split.
    unfold datetime.int_timestamp, datetime.HOUR, datetime.MICRO in *.
    rewrite !Z.quot_div_nonneg by lia.
    replace (now + Settings.ACCESS_TOKEN_EXPIRE_HOURS s * (3600 * 1000000))
      with (now + (3600 * Settings.ACCESS_TOKEN_EXPIRE_HOURS s) * 1000000)
      by lia.
    by rewrite Z.div_add by lia.
  - intros now p e He Hi Hn. split.
    + intros Hle. by apply (verify_access_token_expired s now p e).
    + intros Hlt Hr Hiss Haud. apply verify_access_token_ok; [|done..].
      apply validate_claims_ok; [done..| |done]. intros e' He'. congruence.
  - intros now tok p e. apply verify_access_token_fails_expired.
Qed.

Lemma C2_expiry_witness :
  let s := Settings.from_env false "secret" 24 in
  let u := RoleManager.create_user_with_role s
             (UserInfo.mk "u1" "teacher@pocheonil.hs.kr" None None true) in
  let p := Token.issued_claims s 1700000000000000 u in
  JWTManager.verify_access_token s 1700086400000000 (Token.signed s p)
    = Raise Token.expired_error /\
  JWTManager.verify_access_token s 1700086399999999 (Token.signed s p) = Ok p /\
  jwt.exp p = Some (1700000000 + 3600 * 24).
Proof.
  intros s u p.
  destruct (C2_expiry s) as (Hissue & Hverify & _).
  destruct (Hverify 1700086400000000 p 1700086400 eq_refl) as [Hexp _].
  { intros i [= <-]. by vm_compute. }
  { by intros n [=]. }
  destruct (Hverify 1700086399999999 p 1700086400 eq_refl) as [_ Hok].
  { intros i [= <-]. by vm_compute. }
  { by intros n [=]. }
  destruct (Hissue 1700000000000000 u (Token.signed s p)
              (1700000000000000 + 24 * datetime.HOUR) eq_refl)
    as (_ & q & Hq & Hclaims).
  destruct Hclaims as (_ & Hexp' & Hsum); [by vm_compute..|].
  split; [apply Hexp; by vm_compute|].
  split.
  - apply Hok; [by vm_compute| |done|done].
    intros claim Hin. unfold JWTManager.required_claims in Hin.
    repeat (apply elem_of_cons in Hin as [->|Hin]; [done|]).
    by apply elem_of_nil in Hin.
  - injection Hq as <-. by rewrite Hexp', Hsum.
Defined.

(** C2 as stated fails, in three ways.  The expired-token error needs
    a signature that verifies: an expired token signed with another
    key is rejected with the invalid-token error.  It also needs
    issued-at and not-before claims that are not in the future: an
    expired token whose issued-at or not-before is still ahead of the
    clock is rejected as not yet valid.  And a token with a valid
    signature, the expected issuer and the five required claims does
    not verify before its expiry when its issued-at or not-before is
    in the future, or when it names an audience. *)
Lemma C2_counterexample :
  let s := Settings.from_env false "secret" 24 in
  let payload iat exp nbf aud :=
    {| jwt.sub := Some "u1"; jwt.email := Some "a@pocheonil.hs.kr";
       jwt.name := None; jwt.role := Some "student";
       jwt.permissions := Some [];
       jwt.iat := Some iat; jwt.exp := Some exp;
       jwt.iss := Some "info-class-api";
       jwt.nbf := nbf; jwt.aud := aud |} in
  let now := 3000 * datetime.MICRO in
  (* expired, signed with another key *)
  (let p := payload 1000 2000 None None in
   let tok := jwt.JWS "HS256" "another-key" p in
   jwt.decode_unverified tok = Ok p /\
   jwt.exp p = Some 2000 /\ 2000 * datetime.MICRO <= now /\
   JWTManager.verify_access_token s now tok =
     Raise (Exc ValueError "Invalid token: Signature verification failed") /\
   JWTManager.verify_access_token s now tok <> Raise Token.expired_error) /\
  (* expired, validly signed, issued-at in the future *)
  (let p := payload 5000 2000 None None in
   2000 * datetime.MICRO <= now /\
   JWTManager.verify_access_token s now (Token.signed s p) =
     Raise (Exc ValueError "Invalid token: The token is not yet valid (iat)") /\
   JWTManager.verify_access_token s now (Token.signed s p)
     <> Raise Token.expired_error) /\
  (* expired, validly signed, not-before in the future *)
  (let p := payload 1000 2000 (Some 5000) None in
   2000 * datetime.MICRO <= now /\
   JWTManager.verify_access_token s now (Token.signed s p) =
     Raise (Exc ValueError "Invalid token: The token is not yet valid (nbf)") /\
   JWTManager.verify_access_token s now (Token.signed s p)
     <> Raise Token.expired_error) /\
  (* before the expiry, validly signed, all claims and the issuer valid *)
  (forall p,
     p ∈ [payload 5000 9000 None None;
          payload 1000 9000 (Some 5000) None;
          payload 1000 9000 None (Some (jwt.Audience "other-service"))] ->
     now < 9000 * datetime.MICRO /\ jwt.exp p = Some 9000 /\
     jwt.iss p = Some JWTManager.ISSUER /\
     forallb (fun claim => jwt.has_claim claim p) JWTManager.required_claims
       = true /\
     Py.is_ok (JWTManager.verify_access_token s now (Token.signed s p))
       = false).
Proof.
  intros s payload now. split; [by repeat split|].
  split; [by repeat split|]. split; [by repeat split|].
  intros p Hp.
  repeat (apply elem_of_cons in Hp as [->|Hp]; [by repeat split|]).
  by apply elem_of_nil in Hp.
Qed.

(** C3. Whatever the signature, a token lacking one of the claims sub,
    email, role, exp, iat is rejected, and so is a token whose issuer
    is not "info-class-api"; a token that verifies carries a signature
    made with the configured secret and algorithm, all five claims and
    that issuer.  A validly signed, unexpired token is rejected with
    the missing-claim error naming the first absent claim, or with the
    issuer error when only the issuer is wrong. *)
Theorem C3_required_claims (s : Settings.t) (now : Z) (tok : jwt.token) :
  JWTManager.required_claims = ["sub"; "email"; "role"; "exp"; "iat"] /\
  JWTManager.ISSUER = "info-class-api" /\
  (forall p claim,
      jwt.decode_unverified tok = Ok p ->
      claim ∈ JWTManager.required_claims ->
      jwt.has_claim claim p = false ->
      Py.is_ok (JWTManager.verify_access_token s now tok) = false) /\
  (forall p,
      jwt.decode_unverified tok = Ok p ->
      jwt.iss p <> Some JWTManager.ISSUER ->
      Py.is_ok (JWTManager.verify_access_token s now tok) = false) /\
  (forall claims,
      JWTManager.verify_access_token s now tok = Ok claims ->
      tok = Token.signed s claims /\
      (forall claim, claim ∈ JWTManager.required_claims ->
                     jwt.has_claim claim claims = true) /\
      jwt.iss claims = Some JWTManager.ISSUER) /\
  (forall p,
      tok = Token.signed s p ->
      jwt.validate_claims now p = Ok p ->
      (forall claim,
          List.find (fun c => negb (jwt.has_claim c p))
            JWTManager.required_claims = Some claim ->
          JWTManager.verify_access_token s now tok =
          Raise (Exc ValueError
                   ("Token verification failed: Missing required claim: "
                    +:+ claim))) /\
      ((forall claim, claim ∈ JWTManager.required_claims ->
                      jwt.has_claim claim p = true) ->
       jwt.iss p <> Some JWTManager.ISSUER ->
       JWTManager.verify_access_token s now tok =
       Raise (Exc ValueError
                "Token verification failed: Invalid token issuer"))).
Proof.
  split; [done|]. split; [done|]. split; [|split; [|split]].
  - intros p claim Hd Hin Hc.
    destruct (JWTManager.verify_access_token s now tok) as [q|] eqn:E; [|done].
    apply verify_access_token_inv in E as (-> & _ & Hr & _).
    injection Hd as ->. rewrite Hr in Hc; done.
  - intros p Hd Hi.
    destruct (JWTManager.verify_access_token s now tok) as [q|] eqn:E; [|done].
    apply verify_access_token_inv in E as (-> & _ & _ & Hiss).
    injection Hd as ->. done.
  - intros claims (-> & _ & Hr & Hi)%verify_access_token_inv. done.
  - intros p -> Hv. rewrite verify_access_token_signed by done. split.
    + by intros claim ->.
    + intros Hr Hi. destruct (List.find _ _) as [claim|] eqn:Hf.
      * apply find_split in Hf as (l1 & l2 & Hl & Hc%negb_true_iff & _).
        rewrite Hr in Hc; [done|]. rewrite Hl, elem_of_app. right.
        apply list_elem_of_here.
      * by rewrite bool_decide_eq_false_2.
Qed.

Lemma C3_required_claims_witness :
  let s := Settings.from_env false "secret" 24 in
  let p := {| jwt.sub := Some "u1"; jwt.email := None;
              jwt.name := None; jwt.role := Some "student";
              jwt.permissions := Some [];
              jwt.iat := Some 1000; jwt.exp := Some 2000;
              jwt.iss := Some "info-class-api";
              jwt.nbf := None; jwt.aud := None |} in
  Py.is_ok (JWTManager.verify_access_token s 1500000000 (Token.signed s p))
    = false /\
  JWTManager.verify_access_token s 1500000000 (Token.signed s p) =
    Raise (Exc ValueError
             "Token verification failed: Missing required claim: email").
Proof.
  intros s p.
  destruct (C3_required_claims s 1500000000 (Token.signed s p))
    as (_ & _ & Hmiss & _ & _ & Hmsg).
  split.
  - apply (Hmiss p "email"); [done| |done].
    unfold JWTManager.required_claims. by repeat constructor.
  - by apply (proj1 (Hmsg p eq_refl eq_refl)).
Defined.

(** ** Refresh *)

Section refresh.

Context {validator : pydantic.Validator}.
Variable s : Settings.t.

Lemma verify_access_token_claims now tok claims :
  JWTManager.verify_access_token s now tok = Ok claims ->
  exists uid email role,
    jwt.sub claims = Some uid /\ jwt.email claims = Some email /\
    jwt.role claims = Some role.
Proof.
  intros (_ & _ & Hr & _)%verify_access_token_inv.
  assert (jwt.has_claim "sub" claims = true) as Hsub
    by (apply Hr; unfold JWTManager.required_claims; by repeat constructor).
  assert (jwt.has_claim "email" claims = true) as Hemail
    by (apply Hr; unfold JWTManager.required_claims; by repeat constructor).
  assert (jwt.has_claim "role" claims = true) as Hrole
    by (apply Hr; unfold JWTManager.required_claims; by repeat constructor).
  destruct claims as [[uid|] [email|] name [role|] perms iat exp iss nbf aud];
    try discriminate.
  by exists uid, email, role.
Qed.

Lemma user_of_payload_cases claims uid email role :
  jwt.sub claims = Some uid -> jwt.email claims = Some email ->
  jwt.role claims = Some role ->
  auth_routes.user_of_payload claims =
  match pydantic.EmailStr email with
  | inl email' => Ok (Token.refreshed_user claims uid email' role)
  | inr message => Raise (Exc ValidationError message)
  end.
Proof.
  intros H1 H2 H3. unfold auth_routes.user_of_payload.
  rewrite H1, H2, H3. unfold pydantic.validate_email.
  cbn [auth_routes.getitem mbind result_bind Py.bind].
  destruct (pydantic.EmailStr email); reflexivity.
Qed.

Lemma refresh_token_invalid now now' tok e :
  JWTManager.verify_access_token s now tok = Raise e ->
  auth_routes.refresh_token s now now' tok =
  ([CallVerifyAccessToken],
   auth_routes.HTTPException 401 "INVALID_TOKEN"
     ("토큰 갱신에 실패했습니다: " +:+ exc_msg e)).
Proof.
  intros H. unfold auth_routes.refresh_token. rewrite H.
  apply verify_access_token_raises_ValueError in H.
  unfold auth_routes.refresh_error, isinstance. by rewrite H.
Qed.

Lemma refresh_token_valid now now' tok claims uid email role email' :
  JWTManager.verify_access_token s now tok = Ok claims ->
  Token.can_issue s now' = true ->
  jwt.sub claims = Some uid -> jwt.email claims = Some email ->
  jwt.role claims = Some role ->
  pydantic.EmailStr email = inl email' ->
  auth_routes.refresh_token s now now' tok =
  ([CallVerifyAccessToken; CallCreateAccessToken],
   auth_routes.TokenExchangeResponse
     {| auth_routes.jwt_token :=
          Token.signed s
            (Token.issued_claims s now'
               (Token.refreshed_user claims uid email' role));
        auth_routes.user := Token.refreshed_user claims uid email' role;
        auth_routes.expires_at :=
          now' + Settings.ACCESS_TOKEN_EXPIRE_HOURS s * datetime.HOUR |}).
Proof.
  intros Hv Hc H1 H2 H3 He.
  unfold auth_routes.refresh_token.
  rewrite Hv, (user_of_payload_cases _ _ _ _ H1 H2 H3), He.
  by rewrite create_access_token_ok.
Qed.

Lemma refresh_token_email_invalid now now' tok claims uid email role message :
  JWTManager.verify_access_token s now tok = Ok claims ->
  jwt.sub claims = Some uid -> jwt.email claims = Some email ->
  jwt.role claims = Some role ->
  pydantic.EmailStr email = inr message ->
  auth_routes.refresh_token s now now' tok =
  ([CallVerifyAccessToken],
   auth_routes.HTTPException 401 "INVALID_TOKEN"
     ("토큰 갱신에 실패했습니다: " +:+ message)).
Proof.
  intros Hv H1 H2 H3 He.
  unfold auth_routes.refresh_token.
  by rewrite Hv, (user_of_payload_cases _ _ _ _ H1 H2 H3), He.
Qed.

Lemma refresh_token_response_inv now now' tok calls data :
  auth_routes.refresh_token s now now' tok =
    (calls, auth_routes.TokenExchangeResponse data) ->
  exists claims, JWTManager.verify_access_token s now tok = Ok claims.
Proof.
  unfold auth_routes.refresh_token.
  destruct (JWTManager.verify_access_token s now tok) as [claims|e];
    [by exists claims|].
  unfold auth_routes.refresh_error.
  by destruct (isinstance e ValueError).
Qed.

Ltac no_provider_call :=
  let H := fresh in
  intros H; repeat (apply elem_of_cons in H as [?|H]; [discriminate|]);
  by apply elem_of_nil in H.

Lemma refresh_token_calls now now' tok :
  let calls := (auth_routes.refresh_token s now now' tok).1 in
  head calls = Some CallVerifyAccessToken /\
  forall firebase_token, CallVerifyIdToken firebase_token ∉ calls.
Proof.
  unfold auth_routes.refresh_token.
  destruct (JWTManager.verify_access_token s now tok) as [claims|e]; simpl.
  - destruct (auth_routes.user_of_payload claims) as [user|e]; simpl.
    + destruct (JWTManager.create_access_token s now' user) as [[? ?]|e];
        simpl; (split; [done|]); intros ft; no_provider_call.
    + split; [done|]. intros ft; no_provider_call.
  - split; [done|]. intros ft; no_provider_call.
Qed.

(** [get_token_expiration] reads the payload whatever the signature. *)
Lemma get_token_expiration_JWS alg key p :
  JWTManager.get_token_expiration (jwt.JWS alg key p) =
  match jwt.exp p with
  | Some e =>
      if datetime.in_range (e * datetime.MICRO)
      then Some (e * datetime.MICRO) else None
  | None => None
  end.
Proof.
  unfold JWTManager.get_token_expiration,
    JWTManager.decode_token_without_verification; simpl.
  destruct p as [sub email name role perms iat [e|] iss nbf aud]; simpl.
  - replace (jwt.nonempty _) with true
      by (by destruct sub, email, name, role, perms, iat).
    simpl. unfold datetime.fromtimestamp.
    by destruct (datetime.in_range _).
  - by rewrite andb_false_r.
Qed.

Lemma refresh_token_if_needed_spec now now' tok user thr :
  Z.abs (thr / 24) <= 999999999 ->
  datetime.in_range (now + thr * datetime.HOUR) = true ->
  Token.can_issue s now' = true ->
  JWTManager.refresh_token_if_needed s now now' tok user thr =
  match JWTManager.get_token_expiration tok with
  | Some expiration =>
      if expiration - now <=? thr * datetime.HOUR
      then Some (Token.signed s (Token.issued_claims s now' user),
                 now' + Settings.ACCESS_TOKEN_EXPIRE_HOURS s * datetime.HOUR)
      else None
  | None => None
  end.
Proof.
  intros Ht Hr Hc. unfold JWTManager.refresh_token_if_needed.
  destruct (JWTManager.get_token_expiration tok) as [expiration|]; [|done].
  unfold datetime.timedelta_hours.
  rewrite (proj2 (Z.leb_le _ _) Ht). bind_simpl.
  unfold datetime.add. rewrite Hr. bind_simpl.
  rewrite create_access_token_ok by done. bind_simpl.
  destruct (Z.leb_spec expiration (now + thr * datetime.HOUR));
    destruct (Z.leb_spec (expiration - now) (thr * datetime.HOUR));
    try lia; done.
Qed.

End refresh.

(** C7, as the code has it.  Refresh verifies the presented token
    first.  When the verification fails, and so when the token has
    expired, refresh answers 401 INVALID_TOKEN without issuing; a token
    appears in the answer only when the verification succeeded.  When
    the token verifies, refresh rebuilds the user from its claims,
    which validates the email claim: an email the validator refuses
    gives 401 INVALID_TOKEN and nothing is issued; otherwise refresh
    issues, whatever the remaining lifetime, a new token for that user
    with the email as normalised.  No call to the identity provider is
    ever made. *)
Theorem C7_refresh {validator : pydantic.Validator} (s : Settings.t)
    (now now' : Z) (tok : jwt.token) :
  (forall e,
      JWTManager.verify_access_token s now tok = Raise e ->
      auth_routes.refresh_token s now now' tok =
      ([CallVerifyAccessToken],
       auth_routes.HTTPException 401 "INVALID_TOKEN"
         ("토큰 갱신에 실패했습니다: " +:+ exc_msg e))) /\
  (forall p e,
      tok = Token.signed s p -> jwt.exp p = Some e ->
      Token.iat_not_future now p -> Token.nbf_not_future now p ->
      e * datetime.MICRO <= now ->
      auth_routes.refresh_token s now now' tok =
      ([CallVerifyAccessToken],
       auth_routes.HTTPException 401 "INVALID_TOKEN"
         "토큰 갱신에 실패했습니다: Token has expired")) /\
  (forall calls data,
      auth_routes.refresh_token s now now' tok =
        (calls, auth_routes.TokenExchangeResponse data) ->
      exists claims, JWTManager.verify_access_token s now tok = Ok claims) /\
  (forall claims,
      JWTManager.verify_access_token s now tok = Ok claims ->
      exists uid email role,
        jwt.sub claims = Some uid /\ jwt.email claims = Some email /\
        jwt.role claims = Some role /\
        (forall message,
            pydantic.EmailStr email = inr message ->
            auth_routes.refresh_token s now now' tok =
            ([CallVerifyAccessToken],
             auth_routes.HTTPException 401 "INVALID_TOKEN"
               ("토큰 갱신에 실패했습니다: " +:+ message))) /\
        (forall email',
            pydantic.EmailStr email = inl email' ->
            Token.can_issue s now' = true ->
            let user := Token.refreshed_user claims uid email' role in
            auth_routes.refresh_token s now now' tok =
            ([CallVerifyAccessToken; CallCreateAccessToken],
             auth_routes.TokenExchangeResponse
               {| auth_routes.jwt_token :=
                    Token.signed s (Token.issued_claims s now' user);
                  auth_routes.user := user;
                  auth_routes.expires_at :=
                    now' + Settings.ACCESS_TOKEN_EXPIRE_HOURS s
                           * datetime.HOUR |})))
  /\
  (head (auth_routes.refresh_token s now now' tok).1
     = Some CallVerifyAccessToken /\
   forall firebase_token,
     CallVerifyIdToken firebase_token
       ∉ (auth_routes.refresh_token s now now' tok).1).
Proof.
  split; [intros e; apply refresh_token_invalid|].
  split.
  { intros p e -> He Hi Hn Hle.
    by rewrite (refresh_token_invalid s now now' _ Token.expired_error)
      by by apply (verify_access_token_expired s now p e). }
  split; [apply refresh_token_response_inv|].
  split; [|apply refresh_token_calls].
  intros claims Hv.
  destruct (verify_access_token_claims _ _ _ _ Hv)
    as (uid & email & role & H1 & H2 & H3).
  exists uid, email, role. repeat split; [done..| |].
  - intros message He.
    by apply (refresh_token_email_invalid s now now' tok claims uid email role).
  - intros email' He Hc user.
    by apply (refresh_token_valid s now now' tok claims uid email role).
Qed.

Lemma C7_refresh_witness :
  let s := Settings.from_env false "secret" 24 in
  let u := RoleManager.create_user_with_role s
             (UserInfo.mk "u1" "teacher@pocheonil.hs.kr" None None true) in
  let tok := Token.signed s (Token.issued_claims s 1700000000000000 u) in
  (auth_routes.refresh_token s 1700086400000000 1700086400000001 tok =
   ([CallVerifyAccessToken],
    auth_routes.HTTPException 401 "INVALID_TOKEN"
      "토큰 갱신에 실패했습니다: Token has expired")) /\
  exists user,
    UserWithRole.uid user = "u1" /\
    UserWithRole.email user = "teacher@pocheonil.hs.kr" /\
    auth_routes.refresh_token s 1700000000000005 1700000000000006 tok =
    ([CallVerifyAccessToken; CallCreateAccessToken],
     auth_routes.TokenExchangeResponse
       {| auth_routes.jwt_token :=
            Token.signed s (Token.issued_claims s 1700000000000006 user);
          auth_routes.user := user;
          auth_routes.expires_at := 1700086400000006 |}).
Proof.
  intros s u tok. split.
  - destruct (C7_refresh s 1700086400000000 1700086400000001 tok)
      as (_ & Hexp & _).
    apply (Hexp (Token.issued_claims s 1700000000000000 u) 1700086400);
      [done|done| |by intros n [=]|by vm_compute].
    intros i [= <-]. by vm_compute.
  - destruct (C7_refresh s 1700000000000005 1700000000000006 tok)
      as (_ & _ & _ & Hok & _).
    destruct (Hok (Token.issued_claims s 1700000000000000 u) eq_refl)
      as (uid & email & role & [= <-] & [= <-] & [= <-] & _ & Hr).
    eexists. split; [|split; [|exact (Hr _ eq_refl eq_refl)]]; done.
Defined.

(** C7 as stated fails: a token that verifies is not always refreshed.
    A token signed with the configured secret, unexpired, with the
    expected issuer and the five required claims, whose email claim is
    not an email address, verifies; refresh then fails to rebuild the
    user and answers 401 INVALID_TOKEN without issuing. *)
Lemma C7_counterexample :
  let s := Settings.from_env false "secret" 24 in
  let p := {| jwt.sub := Some "u1"; jwt.email := Some "not-an-email";
              jwt.name := None; jwt.role := Some "student";
              jwt.permissions := Some [];
              jwt.iat := Some 1700000000; jwt.exp := Some 1700086400;
              jwt.iss := Some "info-class-api";
              jwt.nbf := None; jwt.aud := None |} in
  let tok := Token.signed s p in
  JWTManager.verify_access_token s 1700000005000000 tok = Ok p /\
  Token.can_issue s 1700000005000001 = true /\
  pydantic.EmailStr "not-an-email" =
    inr "value is not a valid email address: An email address must have an @-sign." /\
  auth_routes.refresh_token s 1700000005000000 1700000005000001 tok =
  ([CallVerifyAccessToken],
   auth_routes.HTTPException 401 "INVALID_TOKEN"
     "토큰 갱신에 실패했습니다: value is not a valid email address: An email address must have an @-sign.").
Proof. by repeat split. Qed.

(** C8. With a threshold and a lifetime that fit the range of
    [datetime], [refresh_token_if_needed] returns a token exactly when
    an expiry can be read from the presented token, without any check
    of its signature, and that expiry is at most the threshold away;
    the token returned is the one freshly issued for the given user at
    the second clock reading.  It returns nothing when the remaining
    lifetime exceeds the threshold or no expiry can be read. *)
Theorem C8_refresh_if_needed (s : Settings.t) (now now' : Z)
    (tok : jwt.token) (user : UserWithRole.t) (thr : Z) :
  Z.abs (thr / 24) <= 999999999 ->
  datetime.in_range (now + thr * datetime.HOUR) = true ->
  Token.can_issue s now' = true ->
  let fresh :=
    (Token.signed s (Token.issued_claims s now' user),
     now' + Settings.ACCESS_TOKEN_EXPIRE_HOURS s * datetime.HOUR) in
  JWTManager.create_access_token s now' user = Ok fresh /\
  (forall r,
      JWTManager.refresh_token_if_needed s now now' tok user thr = Some r <->
      r = fresh /\
      exists expiration,
        JWTManager.get_token_expiration tok = Some expiration /\
        expiration - now <= thr * datetime.HOUR) /\
  (forall expiration,
      JWTManager.get_token_expiration tok = Some expiration ->
      thr * datetime.HOUR < expiration - now ->
      JWTManager.refresh_token_if_needed s now now' tok user thr = None) /\
  (JWTManager.get_token_expiration tok = None ->
   JWTManager.refresh_token_if_needed s now now' tok user thr = None) /\
  JWTManager.get_token_expiration tok =
    match tok with
    | jwt.Opaque _ => None
    | jwt.JWS _ _ p =>
        match jwt.exp p with
        | Some e =>
            if datetime.in_range (e * datetime.MICRO)
            then Some (e * datetime.MICRO) else None
        | None => None
        end
    end.
Proof.
  intros Ht Hr Hc fresh.
  split; [by apply create_access_token_ok|].
  rewrite (refresh_token_if_needed_spec s now now' tok user thr Ht Hr Hc).
  fold fresh.
  split; [|split; [|split]].
  - intros r. destruct (JWTManager.get_token_expiration tok) as [x|].
    + destruct (Z.leb_spec (x - now) (thr * datetime.HOUR)).
      * split; [intros [= <-]; split; [done|by exists x]|by intros [-> _]].
      * split; [done|]. intros (_ & y & [= <-] & ?). lia.
    + split; [done|]. by intros (_ & y & ? & _).
  - intros x -> Hlt.
    by destruct (Z.leb_spec (x - now) (thr * datetime.HOUR)); [lia|].
  - by intros ->.
  - destruct tok as [raw|alg key p]; [done|apply get_token_expiration_JWS].
Qed.

Lemma C8_refresh_if_needed_witness :
  let s := Settings.from_env false "secret" 24 in
  let u := RoleManager.create_user_with_role s
             (UserInfo.mk "u1" "teacher@pocheonil.hs.kr" None None true) in
  let tok := jwt.JWS "HS256" "any-key"
               (Token.issued_claims s 1700000000000000 u) in
  JWTManager.refresh_token_if_needed s 1700079200000000 1700079200000001
    tok u 2 =
  Some (Token.signed s (Token.issued_claims s 1700079200000001 u),
        1700165600000001) /\
  JWTManager.refresh_token_if_needed s 1700079199999999 1700079200000001
    tok u 2 = None.
Proof.
  intros s u tok. split.
  - destruct (C8_refresh_if_needed s 1700079200000000 1700079200000001
                tok u 2) as (_ & Hiff & _); [by vm_compute|done|done|].
    apply Hiff. split; [done|]. exists 1700086400000000.
    split; [done|by vm_compute].
  - destruct (C8_refresh_if_needed s 1700079199999999 1700079200000001
                tok u 2) as (_ & _ & Hnone & _); [by vm_compute|done|done|].
    apply (Hnone 1700086400000000); [done|by vm_compute].
Defined.

(** ** Identity validation *)

Section validation.

Context {casing : PyStr.Casing}.
Variable s : Settings.t.
Variable fc : FirebaseConfig.t.
Variable verify_id_token : FirebaseConfig.provider.

Lemma validate_token_production firebase_token :
  Settings.DEBUG s = false ->
  FirebaseTokenValidator.validate_token s fc verify_id_token firebase_token =
  ([CallVerifyIdToken firebase_token],
   FirebaseTokenValidator.handle
     (verify_id_token firebase_token
        ≫= FirebaseTokenValidator.check_decoded s)).
Proof.
  intros H. unfold FirebaseTokenValidator.validate_token,
    FirebaseTokenValidator.mock_mode. by rewrite H.
Qed.

Lemma handle_rejected e :
  exc_cls e ∈ [InvalidIdTokenError; ExpiredIdTokenError;
               RevokedIdTokenError] ->
  FirebaseTokenValidator.handle (Raise e) =
  Identity.value_error ("Invalid Firebase token: " +:+ exc_msg e).
Proof.
  destruct e as [cls msg]; simpl. intros H.
  repeat (apply elem_of_cons in H as [->|H]; [done|]).
  by apply elem_of_nil in H.
Qed.

(** On an ASCII message the route's choice is the one computed with
    the folding of A-Z. *)
Lemma classify_closed msg :
  PyStr.is_ascii msg = true ->
  auth_routes.classify msg = @auth_routes.classify PyStr.ascii_casing msg.
Proof. intros H. unfold auth_routes.classify. by rewrite lower_closed. Qed.

Lemma exchange_error_closed e :
  PyStr.is_ascii (exc_msg e) = true ->
  auth_routes.exchange_error e
  = @auth_routes.exchange_error PyStr.ascii_casing e.
Proof.
  intros H. unfold auth_routes.exchange_error. by rewrite classify_closed.
Qed.

Lemma failure_code_closed msg :
  PyStr.is_ascii msg = true ->
  Identity.failure_code (Identity.value_error msg)
  = @Identity.failure_code PyStr.ascii_casing (Identity.value_error msg).
Proof.
  intros H. unfold Identity.failure_code, Identity.value_error.
  by rewrite exchange_error_closed.
Qed.

Lemma failure_code_rejected msg :
  Identity.failure_code
    (Identity.value_error ("Invalid Firebase token: " +:+ msg))
  = Some "INVALID_TOKEN".
Proof.
  unfold Identity.failure_code, Identity.value_error,
    auth_routes.exchange_error, auth_routes.classify.
  cbn [isinstance exc_cls exc_msg].
  replace (issubclass ValueError ValueError) with true by done.
  unfold PyStr.any_in at 1. cbn [existsb].
  by rewrite (contains_lower_prefix "invalid" "Invalid Firebase token: ").
Qed.

(** What [validate_token] makes of a decoded token. *)
Lemma handle_check_decoded d :
  FirebaseTokenValidator.handle (FirebaseTokenValidator.check_decoded s d) =
  if negb (Identity.has_uid d)
  then Identity.value_error
         "Token validation failed: Token does not contain user ID"
  else if negb (Identity.has_email d)
  then Identity.value_error
         "Token validation failed: Token does not contain email"
  else if negb (Identity.verified d)
  then Identity.value_error "Email address is not verified"
  else if negb (Identity.domain_allowed s d)
  then Identity.value_error
         ("Email domain not allowed. Must be from "
          +:+ Settings.ALLOWED_EMAIL_DOMAIN s)
  else Ok {| UserInfo.uid := default "" (DecodedToken.uid d);
             UserInfo.email := default "" (DecodedToken.email d);
             UserInfo.name := FirebaseTokenValidator.name_of d;
             UserInfo.picture := DecodedToken.picture d;
             UserInfo.email_verified := true |}.
Proof.
  unfold FirebaseTokenValidator.check_decoded, Identity.has_uid,
    Identity.has_email, Identity.verified, Identity.domain_allowed.
  rewrite !negb_involutive.
  destruct (PyStr.falsy (DecodedToken.uid d)); [done|].
  destruct (PyStr.falsy (DecodedToken.email d)); [done|].
  destruct (default false (DecodedToken.email_verified d)); [|done].
  by destruct (Settings.is_allowed_domain s _).
Qed.

Lemma failure_code_decoded d :
  Settings.ALLOWED_EMAIL_DOMAIN s = "@pocheonil.hs.kr" ->
  Identity.failure_code
    (FirebaseTokenValidator.handle
       (FirebaseTokenValidator.check_decoded s d)) =
  if negb (Identity.has_uid d) || negb (Identity.has_email d)
  then Some "BAD_REQUEST"
  else if negb (Identity.verified d) || negb (Identity.domain_allowed s d)
  then Some "UNAUTHORIZED"
  else None.
Proof.
  intros Hdom. rewrite handle_check_decoded, Hdom.
  destruct (Identity.has_uid d); cbn [negb orb];
    [|by rewrite failure_code_closed by reflexivity].
  destruct (Identity.has_email d); cbn [negb orb];
    [|by rewrite failure_code_closed by reflexivity].
  destruct (Identity.verified d); cbn [negb orb];
    [|by rewrite failure_code_closed by reflexivity].
  destruct (Identity.domain_allowed s d); cbn [negb orb]; [done|].
  by rewrite failure_code_closed by reflexivity.
Qed.

End validation.

(** C5, as the code has it.  Outside debug mode and with the
    configured domain: when the provider rejects the raw token as
    invalid, expired or revoked, the failure is of the INVALID_TOKEN
    kind; when the provider decodes it, a token without subject id,
    then one without email, fails with a wrapped error of the
    BAD_REQUEST kind, then one whose email is unverified, then one
    whose email is outside the allowed domain, fails with an error of
    the UNAUTHORIZED kind.  The checks run in that order. *)
Theorem C5_validate_failures {casing : PyStr.Casing} (s : Settings.t)
    (fc : FirebaseConfig.t) (verify_id_token : FirebaseConfig.provider)
    (firebase_token : string) :
  Settings.DEBUG s = false ->
  Settings.ALLOWED_EMAIL_DOMAIN s = "@pocheonil.hs.kr" ->
  let r := (FirebaseTokenValidator.validate_token s fc verify_id_token
              firebase_token).2 in
  (Identity.rejected (verify_id_token firebase_token) ->
   Identity.failure_code r = Some "INVALID_TOKEN" /\
   exists e, verify_id_token firebase_token = Raise e /\
     r = Identity.value_error ("Invalid Firebase token: " +:+ exc_msg e)) /\
  (forall d, verify_id_token firebase_token = Ok d ->
     (Identity.has_uid d = false ->
      r = Identity.value_error
            "Token validation failed: Token does not contain user ID" /\
      Identity.failure_code r = Some "BAD_REQUEST") /\
     (Identity.has_uid d = true -> Identity.has_email d = false ->
      r = Identity.value_error
            "Token validation failed: Token does not contain email" /\
      Identity.failure_code r = Some "BAD_REQUEST") /\
     (Identity.has_uid d = true -> Identity.has_email d = true ->
      Identity.verified d = false ->
      r = Identity.value_error "Email address is not verified" /\
      Identity.failure_code r = Some "UNAUTHORIZED") /\
     (Identity.has_uid d = true -> Identity.has_email d = true ->
      Identity.verified d = true -> Identity.domain_allowed s d = false ->
      r = Identity.value_error
            "Email domain not allowed. Must be from @pocheonil.hs.kr" /\
      Identity.failure_code r = Some "UNAUTHORIZED")).
Proof.
  intros Hdebug Hdom r. subst r.
  rewrite validate_token_production by done. cbn [snd].
  split.
  - intros (e & He & Hcls). rewrite He.
    cbn [mbind result_bind Py.bind].
    rewrite handle_rejected by done. rewrite failure_code_rejected.
    split; [done|]. by exists e.
  - intros d Hd. rewrite Hd. cbn [mbind result_bind Py.bind].
    rewrite failure_code_decoded by done.
    rewrite handle_check_decoded, Hdom.
    repeat split; intros;
      by repeat match goal with
                | H : _ = _ |- _ => rewrite H
                end.
Qed.

Lemma C5_validate_failures_witness :
  let s := Settings.from_env false "secret" 24 in
  let d := {| DecodedToken.uid := Some "u1";
              DecodedToken.email := Some "visitor@elsewhere.example";
              DecodedToken.name := None; DecodedToken.display_name := None;
              DecodedToken.picture := None;
              DecodedToken.email_verified := Some false |} in
  let r := (FirebaseTokenValidator.validate_token s (FirebaseConfig.mk None)
              (fun _ => Ok d) "raw-token").2 in
  Identity.failure_code r = Some "UNAUTHORIZED" /\
  r = Identity.value_error "Email address is not verified".
Proof.
  intros s d r.
  destruct (C5_validate_failures s (FirebaseConfig.mk None) (fun _ => Ok d)
              "raw-token" eq_refl eq_refl) as (_ & Horder).
  destruct (Horder d eq_refl) as (_ & _ & Hv & _).
  destruct Hv as [Hr Hc]; done.
Defined.

(** C5 as stated fails, in three ways.  A decoded token without a
    subject id is not refused as unauthorized: its error is wrapped as
    a failed validation, which the exchange route reports as
    BAD_REQUEST.  A failure of the INVALID_TOKEN kind does not need a
    rejected token: when the provider fails for another reason with a
    message that holds the word "expired", the wrapped error gets that
    kind.  And a failure of the UNAUTHORIZED kind does not need a
    decoded token: a provider failure whose message holds "not
    verified" gets that kind. *)
Lemma C5_counterexample :
  let s := Settings.from_env false "secret" 24 in
  let validate provider :=
    (FirebaseTokenValidator.validate_token s (FirebaseConfig.mk None)
       provider "raw-token").2 in
  (let d := {| DecodedToken.uid := None;
               DecodedToken.email := Some "student@pocheonil.hs.kr";
               DecodedToken.name := None; DecodedToken.display_name := None;
               DecodedToken.picture := None;
               DecodedToken.email_verified := Some true |} in
   let r := validate (fun _ => Ok d) in
   DecodedToken.uid d = None /\
   r = Identity.value_error
         "Token validation failed: Token does not contain user ID" /\
   Identity.failure_code r = Some "BAD_REQUEST" /\
   Identity.failure_code r <> Some "UNAUTHORIZED") /\
  (let e := Exc Exception
              "Failed to fetch public key certificates: certificate has expired" in
   let r := validate (fun _ => Raise e) in
   ~ Identity.rejected (Raise e) /\
   r = Identity.value_error
         "Token validation failed: Failed to fetch public key certificates: certificate has expired" /\
   Identity.failure_code r = Some "INVALID_TOKEN") /\
  (let e := Exc Exception "Project is not verified for this API" in
   let r := validate (fun _ => Raise e) in
   (forall d, @Raise DecodedToken.t e <> Ok d) /\
   r = Identity.value_error
         "Token validation failed: Project is not verified for this API" /\
   Identity.failure_code r = Some "UNAUTHORIZED").
Proof.
  intros s validate. split; [by repeat split|]. split.
  - split; [|by split]. intros (e' & [= <-] & Hcls).
    repeat (apply elem_of_cons in Hcls as [?|Hcls]; [discriminate|]).
    by apply elem_of_nil in Hcls.
  - by repeat split.
Qed.

(** C6. Outside debug mode, a decoded token that has a subject id and
    an email but whose email is not verified is refused with the
    unverified-email error, whatever the allowed domain and the admin
    allow-list are; the exchange answers 401 UNAUTHORIZED after the
    provider call alone, without resolving a role or issuing a
    token. *)
Theorem C6_unverified_email {casing : PyStr.Casing} (s : Settings.t)
    (fc : FirebaseConfig.t)
    (verify_id_token : FirebaseConfig.provider) (now : Z)
    (firebase_token : string) (d : DecodedToken.t) :
  Settings.DEBUG s = false ->
  verify_id_token firebase_token = Ok d ->
  Identity.has_uid d = true -> Identity.has_email d = true ->
  Identity.verified d = false ->
  FirebaseTokenValidator.validate_token s fc verify_id_token firebase_token =
    ([CallVerifyIdToken firebase_token],
     Identity.value_error "Email address is not verified") /\
  auth_routes.exchange_firebase_token s fc verify_id_token now firebase_token =
    ([CallVerifyIdToken firebase_token],
     auth_routes.HTTPException 401 "UNAUTHORIZED"
       "Email address is not verified").
Proof.
  intros Hdebug Hd Hu He Hv.
  assert (FirebaseTokenValidator.validate_token s fc verify_id_token
            firebase_token =
          ([CallVerifyIdToken firebase_token],
           Identity.value_error "Email address is not verified")) as H.
  { rewrite validate_token_production, Hd by done.
    cbn [mbind result_bind Py.bind].
    by rewrite handle_check_decoded, Hu, He, Hv. }
  split; [done|].
  unfold auth_routes.exchange_firebase_token. rewrite H.
  unfold Identity.value_error.
  by rewrite exchange_error_closed by reflexivity.
Qed.

Lemma C6_unverified_email_witness :
  let s := Settings.from_env false "secret" 24 in
  let d := {| DecodedToken.uid := Some "u1";
              DecodedToken.email := Some "admin@pocheonil.hs.kr";
              DecodedToken.name := None; DecodedToken.display_name := None;
              DecodedToken.picture := None;
              DecodedToken.email_verified := Some false |} in
  Settings.is_admin_email s "admin@pocheonil.hs.kr" = true /\
  Identity.domain_allowed s d = true /\
  auth_routes.exchange_firebase_token s (FirebaseConfig.mk None)
    (fun _ => Ok d) 1700000000000000 "raw-token" =
    ([CallVerifyIdToken "raw-token"],
     auth_routes.HTTPException 401 "UNAUTHORIZED"
       "Email address is not verified").
Proof.
  intros s d. split; [done|]. split; [done|].
  by apply (C6_unverified_email s (FirebaseConfig.mk None) (fun _ => Ok d)
              1700000000000000 "raw-token" d).
Defined.

(** C10, on the code.  With DEBUG set, [validate_token] evaluates
    [firebase_config.is_initialized()]; the class [FirebaseConfig]
    defines no such member, so the call raises [AttributeError], which
    the last handler wraps: validation fails for every input, before
    any provider call, and the exchange answers 400 BAD_REQUEST.  The
    mock identity the branch was meant to return would have been
    resolved to the admin role. *)
Theorem C10_debug_mode {casing : PyStr.Casing} (secret_key domain : string)
    (hours : Z)
    (admins : list string) (fc : FirebaseConfig.t)
    (verify_id_token : FirebaseConfig.provider) (now : Z)
    (firebase_token : string) :
  let s := Settings.mk true secret_key hours domain admins in
  ("is_initialized" ∉ FirebaseConfig.members) /\
  FirebaseTokenValidator.validate_token s fc verify_id_token firebase_token =
    ([],
     Identity.value_error
       "Token validation failed: 'FirebaseConfig' object has no attribute 'is_initialized'")
  /\
  auth_routes.exchange_firebase_token s fc verify_id_token now firebase_token =
    ([],
     auth_routes.HTTPException 400 "BAD_REQUEST"
       "Token validation failed: 'FirebaseConfig' object has no attribute 'is_initialized'")
  /\
  RoleManager.determine_user_role (Settings.from_env true secret_key hours)
    FirebaseTokenValidator.mock_user = UserRole.ADMIN.
Proof.
  intros s.
  assert (FirebaseTokenValidator.validate_token s fc verify_id_token
            firebase_token =
          ([], Identity.value_error
                 "Token validation failed: 'FirebaseConfig' object has no attribute 'is_initialized'"))
    as Hv by done.
  split; [|split; [done|split]].
  - unfold FirebaseConfig.members. intros H.
    repeat (apply elem_of_cons in H as [?|H]; [discriminate|]).
    by apply elem_of_nil in H.
  - unfold auth_routes.exchange_firebase_token. rewrite Hv.
    unfold Identity.value_error.
    by rewrite exchange_error_closed by reflexivity.
  - rewrite determine_user_role_cases.
    unfold Settings.is_admin_email.
    cbn [Settings.ADMIN_EMAILS Settings.from_env fmap list_fmap
           UserInfo.email FirebaseTokenValidator.mock_user].
    lower_closed. done.
Qed.

(** * Further properties of the code *)

(** ** Roles and permissions *)

Lemma get_role_permissions_cases role :
  RoleManager.get_role_permissions role =
  if String.eqb role UserRole.ADMIN then Spec.permissions_of Spec.Admin
  else if String.eqb role UserRole.STUDENT then Spec.permissions_of Spec.Student
  else if String.eqb role UserRole.GUEST then Spec.permissions_of Spec.Guest
  else [].
Proof.
  destruct (String.eqb_spec role UserRole.ADMIN) as [->|Ha]; [done|].
  destruct (String.eqb_spec role UserRole.STUDENT) as [->|Hs]; [done|].
  destruct (String.eqb_spec role UserRole.GUEST) as [->|Hg]; [done|].
  unfold RoleManager.get_role_permissions, RoleManager.ROLE_PERMISSIONS.
  by rewrite !lookup_insert_ne, lookup_singleton_ne by done.
Qed.

(** X1. A role outside the permission table has no permission at all:
    the lookup answers the empty list instead of failing, and every
    capability test is false. *)
Theorem X1_unknown_role_has_no_permission (role : string) :
  role <> UserRole.ADMIN -> role <> UserRole.STUDENT ->
  role <> UserRole.GUEST ->
  RoleManager.get_role_permissions role = [] /\
  (forall permission, RoleManager.has_permission role permission = false) /\
  RoleManager.can_access_admin_features role = false /\
  RoleManager.can_manage_files role = false /\
  RoleManager.can_view_submissions role = false.
Proof.
  intros Ha Hs Hg.
  assert (RoleManager.get_role_permissions role = []) as H.
  { rewrite get_role_permissions_cases.
    by rewrite (proj2 (String.eqb_neq _ _) Ha),
      (proj2 (String.eqb_neq _ _) Hs), (proj2 (String.eqb_neq _ _) Hg). }
  unfold RoleManager.can_access_admin_features, RoleManager.can_manage_files,
    RoleManager.can_view_submissions, RoleManager.has_permission.
  rewrite H. repeat split; try done.
Qed.

Lemma X1_unknown_role_has_no_permission_witness :
  RoleManager.get_role_permissions "Admin" = [] /\
  RoleManager.can_access_admin_features "teacher" = false.
Proof.
  split.
  - by apply (X1_unknown_role_has_no_permission "Admin").
  - by apply (X1_unknown_role_has_no_permission "teacher").
Defined.

(** X2. For every role string, each of the three capability tests
    (admin features, file management, viewing submissions) answers
    true exactly for the admin role; the role names are matched with
    their exact case. *)
Theorem X2_capabilities_are_admin_only (role : string) :
  RoleManager.can_access_admin_features role = RoleManager.is_admin role /\
  RoleManager.can_manage_files role = RoleManager.is_admin role /\
  RoleManager.can_view_submissions role = RoleManager.is_admin role /\
  (RoleManager.is_admin role = true -> RoleManager.is_student role = false).
Proof.
  unfold RoleManager.can_access_admin_features, RoleManager.can_manage_files,
    RoleManager.can_view_submissions, RoleManager.has_permission,
    RoleManager.is_admin, RoleManager.is_student.
  rewrite get_role_permissions_cases.
  destruct (String.eqb_spec role UserRole.ADMIN) as [->|Ha]; [done|].
  destruct (String.eqb_spec role UserRole.STUDENT) as [->|Hs]; [done|].
  by destruct (String.eqb_spec role UserRole.GUEST) as [->|Hg].
Qed.

Lemma X2_capabilities_are_admin_only_witness :
  RoleManager.is_student "admin" = false.
Proof.
  by apply (X2_capabilities_are_admin_only "admin").
Defined.

(** ** The admin allow-list as shared state *)

Section allow_list_state.

Context {casing : PyStr.Casing}.
Variable s : Settings.t.

Lemma find_app_last {A} (f : A -> bool) l x :
  (forall y, y ∈ l -> f y = false) -> f x = true ->
  List.find f (l ++ [x]) = Some x.
Proof.
  induction l as [|y l IH]; simpl; intros Hl Hx.
  - by rewrite Hx.
  - rewrite (Hl y) by apply list_elem_of_here.
    apply IH; [|done]. intros z Hz. apply Hl. by right.
Qed.

Lemma not_on_list_entries email :
  ~ Spec.on_admin_list s email ->
  forall y, y ∈ Settings.ADMIN_EMAILS s -> PyStr.lower y <> PyStr.lower email.
Proof. intros H y Hy Heq. apply H. by exists y. Qed.

Lemma set_ADMIN_EMAILS_id :
  Settings.set_ADMIN_EMAILS (Settings.ADMIN_EMAILS s) s = s.
Proof. by destruct s. Qed.

Lemma add_then_remove email :
  ~ Spec.on_admin_list s email ->
  RoleManager.remove_admin_email email (RoleManager.add_admin_email email s)
    = (s, true).
Proof.
  intros Hn. pose proof (not_on_list_entries email Hn) as Hl.
  rewrite add_admin_email_absent by done.
  unfold RoleManager.remove_admin_email; simpl.
  rewrite find_app_last.
  - rewrite list_remove_first.
    + simpl. rewrite app_nil_r. destruct s; simpl. done.
    + intros y Hy ->. apply (Hl _ Hy). apply lower_idem.
  - intros y Hy. apply String.eqb_neq. by apply Hl.
  - apply String.eqb_eq, lower_idem.
Qed.

Lemma add_admin_email_NoDup email :
  NoDup (PyStr.lower <$> Settings.ADMIN_EMAILS s) ->
  NoDup (PyStr.lower <$>
           Settings.ADMIN_EMAILS (RoleManager.add_admin_email email s)).
Proof.
  intros Hnd. destruct (Settings.is_admin_email s email) eqn:E.
  - by rewrite add_admin_email_present by by apply is_admin_email_spec.
  - assert (~ Spec.on_admin_list s email) as Hn
      by (rewrite <- is_admin_email_spec; congruence).
    rewrite add_admin_email_absent by done. simpl.
    rewrite fmap_app. apply NoDup_app. split; [done|]. split.
    + intros x Hx Hx'. apply list_elem_of_singleton in Hx'.
      simpl in Hx'. rewrite lower_idem in Hx'. subst x.
      apply list_elem_of_fmap in Hx as (y & Hy1 & Hy2).
      by apply (not_on_list_entries email Hn y).
    + apply NoDup_singleton.
Qed.

Lemma remove_admin_email_NoDup email :
  NoDup (PyStr.lower <$> Settings.ADMIN_EMAILS s) ->
  NoDup (PyStr.lower <$>
           Settings.ADMIN_EMAILS (RoleManager.remove_admin_email email s).1).
Proof.
  intros Hnd. destruct (Settings.is_admin_email s email) eqn:E.
  - apply is_admin_email_spec, remove_admin_email_present in E
      as (l1 & a & l2 & Hl & _ & _ & ->).
    simpl. rewrite Hl, fmap_app, fmap_cons in Hnd.
    apply NoDup_app in Hnd as (H1 & H2 & [_ H3]%NoDup_cons).
    rewrite fmap_app. apply NoDup_app. split; [done|]. split; [|done].
    intros x Hx Hx'. apply (H2 x Hx). by right.
  - rewrite remove_admin_email_absent; [done|].
    rewrite <- is_admin_email_spec. congruence.
Qed.

Lemma add_admin_email_other email email' :
  PyStr.lower email' <> PyStr.lower email ->
  Settings.is_admin_email (RoleManager.add_admin_email email s) email'
    = Settings.is_admin_email s email'.
Proof.
  intros Hne. destruct (Settings.is_admin_email s email) eqn:E.
  - by rewrite add_admin_email_present by by apply is_admin_email_spec.
  - rewrite add_admin_email_absent
      by (rewrite <- is_admin_email_spec; congruence).
    unfold Settings.is_admin_email; simpl. apply bool_decide_ext.
    rewrite fmap_app, elem_of_app. split; [|by left].
    intros [H|H]; [done|]. apply list_elem_of_singleton in H.
    simpl in H. by rewrite lower_idem in H.
Qed.

Lemma remove_admin_email_other email email' :
  PyStr.lower email' <> PyStr.lower email ->
  Settings.is_admin_email (RoleManager.remove_admin_email email s).1 email'
    = Settings.is_admin_email s email'.
Proof.
  intros Hne. destruct (Settings.is_admin_email s email) eqn:E.
  - apply is_admin_email_spec, remove_admin_email_present in E
      as (l1 & a & l2 & Hl & Ha & _ & ->).
    unfold Settings.is_admin_email; simpl. apply bool_decide_ext.
    rewrite Hl, !fmap_app, fmap_cons, !elem_of_app, elem_of_cons.
    split; [intros [?|?]; auto|].
    intros [?|[H|?]]; auto. congruence.
  - rewrite remove_admin_email_absent; [done|].
    rewrite <- is_admin_email_spec. congruence.
Qed.

Lemma allow_list_ops_keep_settings email :
  let s1 := RoleManager.add_admin_email email s in
  let s2 := (RoleManager.remove_admin_email email s).1 in
  (Settings.DEBUG s1 = Settings.DEBUG s /\
   Settings.SECRET_KEY s1 = Settings.SECRET_KEY s /\
   Settings.ACCESS_TOKEN_EXPIRE_HOURS s1 = Settings.ACCESS_TOKEN_EXPIRE_HOURS s /\
   Settings.ALLOWED_EMAIL_DOMAIN s1 = Settings.ALLOWED_EMAIL_DOMAIN s) /\
  (Settings.DEBUG s2 = Settings.DEBUG s /\
   Settings.SECRET_KEY s2 = Settings.SECRET_KEY s /\
   Settings.ACCESS_TOKEN_EXPIRE_HOURS s2 = Settings.ACCESS_TOKEN_EXPIRE_HOURS s /\
   Settings.ALLOWED_EMAIL_DOMAIN s2 = Settings.ALLOWED_EMAIL_DOMAIN s).
Proof.
  unfold RoleManager.add_admin_email, RoleManager.remove_admin_email.
  split.
  - by destruct (negb _).
  - destruct (List.find _ _) as [a|]; [|done].
    by destruct (RoleManager.list_remove _ _).
Qed.

End allow_list_state.

(** X3. Adding an email that is not on the allow-list and then
    removing it, under any casing, restores the settings exactly and
    the removal reports true. *)
Theorem X3_add_then_remove {casing : PyStr.Casing} (s : Settings.t)
    (email email' : string) :
  ~ Spec.on_admin_list s email ->
  PyStr.lower email' = PyStr.lower email ->
  RoleManager.remove_admin_email email' (RoleManager.add_admin_email email s)
    = (s, true).
Proof.
  intros Hn Heq.
  destruct (allow_list_case_insensitive
              (RoleManager.add_admin_email email s) email email' Heq)
    as (_ & _ & ->).
  by apply add_then_remove.
Qed.

Lemma X3_add_then_remove_witness :
  let s := Settings.from_env false "secret" 24 in
  RoleManager.remove_admin_email "TEACHER@pocheonil.hs.kr"
    (RoleManager.add_admin_email "Teacher@Pocheonil.hs.kr" s) = (s, true).
Proof.
  intros s. apply X3_add_then_remove; [|done].
  intros (a & Ha & Hl). apply list_elem_of_singleton in Ha as ->.
  discriminate Hl.
Defined.

(** X4. The allow-list never acquires two entries that are equal up to
    case: the list of the class body has none, and neither adding nor
    removing an email creates one. *)
Theorem X4_allow_list_stays_duplicate_free {casing : PyStr.Casing}
    (s : Settings.t) (email : string) :
  NoDup (PyStr.lower <$> Settings.ADMIN_EMAILS s) ->
  NoDup (PyStr.lower <$>
           Settings.ADMIN_EMAILS (RoleManager.add_admin_email email s)) /\
  NoDup (PyStr.lower <$>
           Settings.ADMIN_EMAILS (RoleManager.remove_admin_email email s).1).
Proof.
  intros H. split;
    [by apply add_admin_email_NoDup|by apply remove_admin_email_NoDup].
Qed.

Lemma X4_allow_list_stays_duplicate_free_witness :
  let s := Settings.from_env false "secret" 24 in
  NoDup (PyStr.lower <$>
           Settings.ADMIN_EMAILS
             (RoleManager.add_admin_email "Teacher@Pocheonil.hs.kr" s)).
Proof.
  intros s.
  apply (X4_allow_list_stays_duplicate_free s "Teacher@Pocheonil.hs.kr").
  simpl. apply NoDup_singleton.
Defined.

(** X5. Adding or removing an email changes the admin status of no
    email that differs from it beyond case, and leaves the debug flag,
    the signing secret, the token lifetime and the allowed domain as
    they were. *)
Theorem X5_allow_list_frame {casing : PyStr.Casing} (s : Settings.t)
    (email email' : string) :
  PyStr.lower email' <> PyStr.lower email ->
  let s1 := RoleManager.add_admin_email email s in
  let s2 := (RoleManager.remove_admin_email email s).1 in
  Settings.is_admin_email s1 email' = Settings.is_admin_email s email' /\
  Settings.is_admin_email s2 email' = Settings.is_admin_email s email' /\
  (Settings.DEBUG s1 = Settings.DEBUG s /\
   Settings.SECRET_KEY s1 = Settings.SECRET_KEY s /\
   Settings.ACCESS_TOKEN_EXPIRE_HOURS s1 = Settings.ACCESS_TOKEN_EXPIRE_HOURS s /\
   Settings.ALLOWED_EMAIL_DOMAIN s1 = Settings.ALLOWED_EMAIL_DOMAIN s) /\
  (Settings.DEBUG s2 = Settings.DEBUG s /\
   Settings.SECRET_KEY s2 = Settings.SECRET_KEY s /\
   Settings.ACCESS_TOKEN_EXPIRE_HOURS s2 = Settings.ACCESS_TOKEN_EXPIRE_HOURS s /\
   Settings.ALLOWED_EMAIL_DOMAIN s2 = Settings.ALLOWED_EMAIL_DOMAIN s).
Proof.
  intros Hne s1 s2.
  split; [by apply add_admin_email_other|].
  split; [by apply remove_admin_email_other|].
  apply allow_list_ops_keep_settings.
Qed.

Lemma X5_allow_list_frame_witness :
  let s := Settings.from_env false "secret" 24 in
  Settings.is_admin_email
    (RoleManager.remove_admin_email "teacher@pocheonil.hs.kr" s).1
    "admin@pocheonil.hs.kr" = true.
Proof.
  intros s.
  destruct (X5_allow_list_frame s "teacher@pocheonil.hs.kr"
              "admin@pocheonil.hs.kr") as (_ & -> & _); done.
Defined.

(** X6. The allow-list decides the role at once: after an email is
    added, a user with that email in any casing resolves to admin;
    after it is removed from a duplicate-free list, the same user
    resolves to student when the domain matches and to guest
    otherwise. *)
Theorem X6_allow_list_changes_role {casing : PyStr.Casing} (s : Settings.t)
    (email : string) (user : UserInfo.t) :
  PyStr.lower (UserInfo.email user) = PyStr.lower email ->
  RoleManager.determine_user_role (RoleManager.add_admin_email email s) user
    = UserRole.ADMIN /\
  (NoDup (PyStr.lower <$> Settings.ADMIN_EMAILS s) ->
   RoleManager.determine_user_role
     (RoleManager.remove_admin_email email s).1 user =
   if Settings.is_allowed_domain s (UserInfo.email user)
   then UserRole.STUDENT else UserRole.GUEST).
Proof.
  intros Heq. split.
  - rewrite determine_user_role_cases.
    by rewrite add_admin_email_member.
  - intros Hnd. rewrite determine_user_role_cases.
    destruct (allow_list_case_insensitive
                (RoleManager.remove_admin_email email s).1 email
                (UserInfo.email user) Heq) as (-> & _).
    rewrite remove_admin_email_gone by done.
    unfold Settings.is_allowed_domain.
    by destruct (allow_list_ops_keep_settings s email) as (_ & _ & _ & _ & ->).
Qed.

Lemma X6_allow_list_changes_role_witness :
  let s := Settings.from_env false "secret" 24 in
  let user := UserInfo.mk "u1" "Admin@pocheonil.hs.kr" None None true in
  RoleManager.determine_user_role s user = "admin" /\
  RoleManager.determine_user_role
    (RoleManager.remove_admin_email "ADMIN@POCHEONIL.HS.KR" s).1 user
    = "student".
Proof.
  intros s user. split; [done|].
  destruct (X6_allow_list_changes_role s "ADMIN@POCHEONIL.HS.KR" user)
    as [_ H]; [done|].
  rewrite H; [done|]. simpl. apply NoDup_singleton.
Defined.

(** ** Session tokens: errors, boundaries and refresh chains *)

Section token_errors.

Context {casing : PyStr.Casing}.
Variable s : Settings.t.

Lemma decode_errors now tok key algorithms e :
  jwt.decode now tok key algorithms = Raise e ->
  e ∈ [Exc DecodeError "Not enough segments";
       Exc InvalidAlgorithmError "The specified alg value is not allowed";
       Exc InvalidSignatureError "Signature verification failed";
       Exc ImmatureSignatureError "The token is not yet valid (iat)";
       Exc ImmatureSignatureError "The token is not yet valid (nbf)";
       Exc ExpiredSignatureError "Signature has expired";
       Exc InvalidAudienceError "Invalid audience"].
Proof.
  destruct tok as [raw|alg k p]; simpl.
  - intros [= <-]. by repeat constructor.
  - case_bool_decide; simpl; [|intros [= <-]; by repeat constructor].
    destruct (String.eqb k key); simpl;
      [|intros [= <-]; by repeat constructor].
    rewrite validate_claims_cases.
    destruct (match jwt.iat p with Some _ => _ | None => _ end);
      [intros [= <-]; by repeat constructor|].
    destruct (match jwt.nbf p with Some _ => _ | None => _ end);
      [intros [= <-]; by repeat constructor|].
    destruct (match jwt.exp p with Some _ => _ | None => _ end);
      [intros [= <-]; by repeat constructor|].
    destruct (jwt.no_audience p); [done|].
    intros [= <-]. by repeat constructor.
Qed.

(** Every error of [verify_access_token] is the expired-token error or
    has a message without the word "expired". *)
Lemma verify_access_token_errors now tok e :
  JWTManager.verify_access_token s now tok = Raise e ->
  exc_cls e = ValueError /\
  (e = Token.expired_error \/
   (PyStr.contains "expired" (PyStr.lower (exc_msg e)) = false /\
    (String.prefix "Invalid token: " (exc_msg e) = true \/
     String.prefix "Token verification failed: " (exc_msg e) = true))).
Proof.
  intros H. split; [by eapply verify_access_token_raises_ValueError|].
  revert H. unfold JWTManager.verify_access_token.
  destruct (jwt.decode _ _ _ _) as [p|e0] eqn:Hd; bind_simpl.
  - destruct (List.find _ _) as [claim|] eqn:Hf; bind_simpl.
    + apply find_split in Hf as (l1 & l2 & Hl & _ & _).
      assert (claim ∈ JWTManager.required_claims) as Hin
        by (rewrite Hl, elem_of_app; right; apply list_elem_of_here).
      unfold JWTManager.required_claims in Hin.
      intros [= <-]. right. cbn [exc_msg].
      repeat (apply elem_of_cons in Hin as [->|Hin];
              [rewrite lower_closed by reflexivity; by split; [|right]|]).
      by apply elem_of_nil in Hin.
    + case_bool_decide; bind_simpl; [done|].
      intros [= <-]. right. cbn [exc_msg].
      rewrite lower_closed by reflexivity. by split; [|right].
  - apply decode_errors in Hd.
    repeat (apply elem_of_cons in Hd as [->|Hd];
            [intros [= <-];
             first [by left
                   |right; cbn [exc_msg];
                    rewrite lower_closed by reflexivity; by split; [|left]]|]).
    by apply elem_of_nil in Hd.
Qed.


Lemma create_access_token_outcome now user :
  Py.is_ok (JWTManager.create_access_token s now user)
    = Token.can_issue s now /\
  forall e, JWTManager.create_access_token s now user = Raise e ->
            exc_cls e = ValueError /\
            String.prefix "Failed to create JWT token: " (exc_msg e) = true.
Proof.
  destruct (Token.can_issue s now) eqn:E.
  - rewrite create_access_token_ok by done. by split.
  - unfold Token.can_issue in E.
    unfold JWTManager.create_access_token, datetime.timedelta_hours.
    destruct (Z.abs _ <=? _); simpl in *.
    + unfold datetime.add. rewrite E. bind_simpl. split; [done|].
      by intros e [= <-].
    + split; [done|]. by intros e [= <-].
Qed.

Lemma issued_claims_required now user claim :
  claim ∈ JWTManager.required_claims ->
  jwt.has_claim claim (Token.issued_claims s now user) = true.
Proof.
  unfold JWTManager.required_claims. intros Hin.
  repeat (apply elem_of_cons in Hin as [->|Hin]; [done|]).
  by apply elem_of_nil in Hin.
Qed.

Lemma verify_issued now now_v user :
  0 <= now <= now_v ->
  now_v < datetime.int_timestamp
            (now + Settings.ACCESS_TOKEN_EXPIRE_HOURS s * datetime.HOUR)
          * datetime.MICRO ->
  JWTManager.verify_access_token s now_v
    (Token.signed s (Token.issued_claims s now user))
  = Ok (Token.issued_claims s now user).
Proof.
  intros Hn He. apply verify_access_token_ok; [|apply issued_claims_required|done].
  by apply issued_claims_valid.
Qed.

End token_errors.

(** X7. The [/me] route answers, for a token issued to a user and
    presented between its issuance and its expiry, that user's id,
    email, name, role and permission list, together with the expiry
    claim of the token. *)
Theorem X7_me_round_trip {casing : PyStr.Casing} (s : Settings.t)
    (u : UserWithRole.t) (now now_v : Z) (tok : jwt.token) (expires_at : Z) :
  JWTManager.create_access_token s now u = Ok (tok, expires_at) ->
  0 <= now <= now_v ->
  now_v < datetime.int_timestamp expires_at * datetime.MICRO ->
  auth_routes.get_current_user s now_v tok =
  ([CallVerifyAccessToken],
   auth_routes.MeResponse
     {| auth_routes.me_uid := Some (UserWithRole.uid u);
        auth_routes.me_email := Some (UserWithRole.email u);
        auth_routes.me_name := UserWithRole.name u;
        auth_routes.me_role := Some (UserWithRole.role u);
        auth_routes.me_permissions := UserWithRole.permissions u;
        auth_routes.me_expires_at :=
          Some (datetime.int_timestamp expires_at) |}).
Proof.
  intros (Hc & -> & ->)%create_access_token_inv Hn He.
  unfold auth_routes.get_current_user.
  by rewrite verify_issued.
Qed.

Lemma X7_me_round_trip_witness :
  let s := Settings.from_env false "secret" 24 in
  let u := RoleManager.create_user_with_role s
             (UserInfo.mk "u1" "teacher@pocheonil.hs.kr" (Some "T") None true) in
  exists tok,
    JWTManager.create_access_token s 1700000000000000 u
      = Ok (tok, 1700086400000000) /\
    auth_routes.get_current_user s 1700000000000001 tok =
    ([CallVerifyAccessToken],
     auth_routes.MeResponse
       (auth_routes.mk_current_user (Some "u1")
          (Some "teacher@pocheonil.hs.kr") (Some "T") (Some "student")
          (RoleManager.get_role_permissions "student") (Some 1700086400))).
Proof.
  intros s u. eexists. split; [reflexivity|].
  by apply (X7_me_round_trip s u 1700000000000000 1700000000000001 _
              1700086400000000).
Defined.

(** X8. The [/me] route never answers 500 to a token that fails
    verification: it answers 401 TOKEN_EXPIRED exactly when the
    verification raised the expired-token error, which it does for a
    validly signed token at or after its expiry, and 403 INVALID_TOKEN
    for every other verification failure. *)
Theorem X8_me_errors {casing : PyStr.Casing} (s : Settings.t) (now : Z)
    (tok : jwt.token) (e : exc) :
  JWTManager.verify_access_token s now tok = Raise e ->
  (e = Token.expired_error /\
   auth_routes.get_current_user s now tok =
   ([CallVerifyAccessToken],
    auth_routes.MeHTTPException 401 "TOKEN_EXPIRED"
      "토큰이 만료되었습니다. 다시 로그인해주세요.")) \/
  (e <> Token.expired_error /\
   auth_routes.get_current_user s now tok =
   ([CallVerifyAccessToken],
    auth_routes.MeHTTPException 403 "INVALID_TOKEN"
      "유효하지 않은 토큰입니다.")).
Proof.
  intros H. unfold auth_routes.get_current_user. rewrite H.
  apply verify_access_token_errors in H as (Hcls & [->|[Hne _]]).
  - left. split; [done|].
    unfold auth_routes.me_error, Token.expired_error.
    cbn [isinstance exc_cls exc_msg].
    by rewrite lower_closed by reflexivity.
  - right. split.
    + intros ->. unfold Token.expired_error in Hne. cbn [exc_msg] in Hne.
      by rewrite lower_closed in Hne by reflexivity.
    + unfold auth_routes.me_error, isinstance. by rewrite Hcls, Hne.
Qed.

Lemma X8_me_errors_witness :
  let s := Settings.from_env false "secret" 24 in
  let p := Token.issued_claims s 1700000000000000
             (UserWithRole.mk "u1" "a@pocheonil.hs.kr" None None true
                "student" []) in
  auth_routes.get_current_user s 1700086400000000 (Token.signed s p) =
  ([CallVerifyAccessToken],
   auth_routes.MeHTTPException 401 "TOKEN_EXPIRED"
     "토큰이 만료되었습니다. 다시 로그인해주세요.") /\
  auth_routes.get_current_user s 1700000000000001 (jwt.Opaque "garbage") =
  ([CallVerifyAccessToken],
   auth_routes.MeHTTPException 403 "INVALID_TOKEN"
     "유효하지 않은 토큰입니다.").
Proof.
  intros s p. split.
  - destruct (X8_me_errors s 1700086400000000 (Token.signed s p)
                Token.expired_error eq_refl) as [[_ H]|[H _]]; [done|].
    by destruct H.
  - destruct (X8_me_errors s 1700000000000001 (jwt.Opaque "garbage")
                (Exc ValueError "Invalid token: Not enough segments") eq_refl)
      as [[H _]|[_ H]]; [discriminate H|done].
Defined.

(** X9. [is_token_expired] compares strictly: for a token carrying a
    representable expiry it is true exactly when the clock is past the
    expiry, whatever the signature.  At the very instant of expiry it
    still answers false although verification, for a token that is
    validly signed and whose issued-at and not-before are not in the
    future, already rejects the token as expired. *)
Theorem X9_is_token_expired_boundary (s : Settings.t) (now : Z)
    (alg key : string) (p : jwt.claims) (e : Z) :
  jwt.exp p = Some e ->
  datetime.in_range (e * datetime.MICRO) = true ->
  JWTManager.is_token_expired now (jwt.JWS alg key p)
    = (e * datetime.MICRO <? now) /\
  (now = e * datetime.MICRO ->
   Token.iat_not_future now p -> Token.nbf_not_future now p ->
   JWTManager.is_token_expired now (Token.signed s p) = false /\
   JWTManager.verify_access_token s now (Token.signed s p)
     = Raise Token.expired_error).
Proof.
  intros He Hr.
  assert (forall a k, JWTManager.is_token_expired now (jwt.JWS a k p)
                      = (e * datetime.MICRO <? now)) as H.
  { intros a k. unfold JWTManager.is_token_expired.
    by rewrite get_token_expiration_JWS, He, Hr. }
  split; [apply H|]. intros -> Hi Hn. split.
  - unfold Token.signed. rewrite H. apply Z.ltb_irrefl.
  - by apply (verify_access_token_expired s _ p e).
Qed.

Lemma X9_is_token_expired_boundary_witness :
  let s := Settings.from_env false "secret" 24 in
  let p := Token.issued_claims s 1700000000000000
             (UserWithRole.mk "u1" "a@pocheonil.hs.kr" None None true
                "student" []) in
  JWTManager.is_token_expired 1700086400000000 (Token.signed s p) = false /\
  JWTManager.verify_access_token s 1700086400000000 (Token.signed s p)
    = Raise Token.expired_error.
Proof.
  intros s p.
  destruct (X9_is_token_expired_boundary s 1700086400000000 "HS256" "secret"
              p 1700086400 eq_refl eq_refl) as [_ H].
  apply H; [done| |by intros n [=]]. intros i [= <-]. by vm_compute.
Defined.

(** X10. A token without expiry information counts as expired:
    whenever [get_token_expiration] reads no expiry,
    [is_token_expired] is true; and no expiry is read from an
    undecodable token, from a payload without an expiry claim and from
    an expiry outside the years 1 to 9999. *)
Theorem X10_no_expiry_means_expired (now : Z) (tok : jwt.token) :
  (JWTManager.get_token_expiration tok = None ->
   JWTManager.is_token_expired now tok = true) /\
  (forall raw, tok = jwt.Opaque raw ->
     JWTManager.get_token_expiration tok = None) /\
  (forall alg key p, tok = jwt.JWS alg key p ->
     jwt.exp p = None -> JWTManager.get_token_expiration tok = None) /\
  (forall alg key p e, tok = jwt.JWS alg key p ->
     jwt.exp p = Some e ->
     e < -62135596800 \/ 253402300799 < e ->
     JWTManager.get_token_expiration tok = None).
Proof.
  split; [|split; [|split]].
  - intros H. unfold JWTManager.is_token_expired. by rewrite H.
  - by intros raw ->.
  - intros alg key p -> He. by rewrite get_token_expiration_JWS, He.
  - intros alg key p e -> He Hout.
    rewrite get_token_expiration_JWS, He.
    replace (datetime.in_range (e * datetime.MICRO)) with false; [done|].
    symmetry. unfold datetime.in_range, datetime.min, datetime.max,
      datetime.MICRO.
    apply andb_false_iff.
    destruct Hout; [left|right]; apply Z.leb_gt; lia.
Qed.

Lemma X10_no_expiry_means_expired_witness :
  JWTManager.is_token_expired 0 (jwt.Opaque "not-a-token") = true /\
  JWTManager.is_token_expired 0
    (jwt.JWS "HS256" "k"
       (jwt.mk None None None None None None (Some 253402300800) None
          None None))
  = true.
Proof.
  split.
  - destruct (X10_no_expiry_means_expired 0 (jwt.Opaque "not-a-token"))
      as (H & Hraw & _).
    apply H, (Hraw "not-a-token" eq_refl).
  - destruct (X10_no_expiry_means_expired 0
                (jwt.JWS "HS256" "k"
                   (jwt.mk None None None None None None
                      (Some 253402300800) None None None)))
      as (H & _ & _ & Hout).
    apply H, (Hout _ _ _ 253402300800 eq_refl eq_refl). lia.
Defined.

(** X11. Refresh keeps the principal: when the presented token
    verifies, its email claim is an address the validator returns
    unchanged, and a new token can be issued, the new token verifies
    between its issuance and its expiry with the same subject, email,
    name, role and permissions as the presented one, and can itself be
    refreshed again. *)
Theorem X11_refresh_keeps_principal {validator : pydantic.Validator}
    (s : Settings.t) (now now' now'' : Z) (tok : jwt.token)
    (claims : jwt.claims) (email : string) :
  JWTManager.verify_access_token s now tok = Ok claims ->
  jwt.email claims = Some email ->
  pydantic.EmailStr email = inl email ->
  Token.can_issue s now' = true ->
  0 <= now' <= now'' ->
  now'' < datetime.int_timestamp
            (now' + Settings.ACCESS_TOKEN_EXPIRE_HOURS s * datetime.HOUR)
          * datetime.MICRO ->
  exists data claims',
    auth_routes.refresh_token s now now' tok =
      ([CallVerifyAccessToken; CallCreateAccessToken],
       auth_routes.TokenExchangeResponse data) /\
    JWTManager.verify_access_token s now'' (auth_routes.jwt_token data)
      = Ok claims' /\
    jwt.sub claims' = jwt.sub claims /\
    jwt.email claims' = jwt.email claims /\
    jwt.name claims' = jwt.name claims /\
    jwt.role claims' = jwt.role claims /\
    jwt.permissions claims' = Some (default [] (jwt.permissions claims)) /\
    jwt.iat claims' = Some (datetime.int_timestamp now') /\
    (forall now3, Token.can_issue s now3 = true ->
       exists data',
         auth_routes.refresh_token s now'' now3 (auth_routes.jwt_token data) =
         ([CallVerifyAccessToken; CallCreateAccessToken],
          auth_routes.TokenExchangeResponse data')).
Proof.
  intros Hv Hemail Hvalid Hc Hn He.
  destruct (verify_access_token_claims s now tok claims Hv)
    as (uid & email0 & role & H1 & H2 & H3).
  assert (email0 = email) as -> by congruence.
  pose proof (refresh_token_valid s now now' tok claims uid email role email
                Hv Hc H1 H2 H3 Hvalid) as Hr.
  eexists _, _. split; [exact Hr|]. cbn [auth_routes.jwt_token].
  pose proof (verify_issued s now' now''
                (Token.refreshed_user claims uid email role) Hn He) as Hv'.
  split; [exact Hv'|].
  rewrite H1, H2, H3. repeat split.
  intros now3 Hc3.
  pose proof (refresh_token_valid s now'' now3 _ _ uid email role email
                Hv' Hc3 eq_refl eq_refl eq_refl Hvalid) as Hr'.
  eexists. exact Hr'.
Qed.

Lemma X11_refresh_keeps_principal_witness :
  let s := Settings.from_env false "secret" 24 in
  let u := UserWithRole.mk "u1" "a@pocheonil.hs.kr" None None true
             "student" ["download_files"] in
  let tok := Token.signed s (Token.issued_claims s 1700000000000000 u) in
  exists data claims',
    auth_routes.refresh_token s 1700000000000005 1700000000000006 tok =
      ([CallVerifyAccessToken; CallCreateAccessToken],
       auth_routes.TokenExchangeResponse data) /\
    JWTManager.verify_access_token s 1700086399999999
      (auth_routes.jwt_token data) = Ok claims' /\
    jwt.sub claims' = Some "u1" /\
    jwt.permissions claims' = Some ["download_files"].
Proof.
  intros s u tok.
  destruct (X11_refresh_keeps_principal s 1700000000000005 1700000000000006
              1700086399999999 tok
              (Token.issued_claims s 1700000000000000 u) "a@pocheonil.hs.kr"
              eq_refl eq_refl)
    as (data & claims' & Hr & Hv & Hs & _ & _ & _ & Hp & _);
    [done|done|lia|by vm_compute|].
  by exists data, claims'.
Defined.







(** ** The exchange pipeline *)

Section exchange.

Context {casing : PyStr.Casing}.
Variable s : Settings.t.
Variable fc : FirebaseConfig.t.
Variable verify_id_token : FirebaseConfig.provider.

Lemma handle_raise_raises e :
  Py.is_ok (FirebaseTokenValidator.handle (Raise e)) = false.
Proof.
  unfold FirebaseTokenValidator.handle.
  destruct (isinstance e InvalidIdTokenError); [done|].
  destruct (isinstance e ExpiredIdTokenError); [done|].
  destruct (isinstance e RevokedIdTokenError); [done|].
  by destruct (_ || _).
Qed.

Lemma validate_token_ok_inv firebase_token calls u :
  Settings.DEBUG s = false ->
  FirebaseTokenValidator.validate_token s fc verify_id_token firebase_token
    = (calls, Ok u) ->
  exists d,
    verify_id_token firebase_token = Ok d /\
    calls = [CallVerifyIdToken firebase_token] /\
    Identity.has_uid d = true /\ Identity.has_email d = true /\
    Identity.verified d = true /\ Identity.domain_allowed s d = true /\
    u = {| UserInfo.uid := default "" (DecodedToken.uid d);
           UserInfo.email := default "" (DecodedToken.email d);
           UserInfo.name := FirebaseTokenValidator.name_of d;
           UserInfo.picture := DecodedToken.picture d;
           UserInfo.email_verified := true |}.
Proof.
  intros Hdebug. rewrite validate_token_production by done.
  intros [= <- H].
  destruct (verify_id_token firebase_token) as [d|e] eqn:Hd.
  - cbn [mbind result_bind Py.bind] in H.
    rewrite handle_check_decoded in H. exists d.
    destruct (Identity.has_uid d); [|done].
    destruct (Identity.has_email d); [|done].
    destruct (Identity.verified d); [|done].
    destruct (Identity.domain_allowed s d); [|done].
    by injection H as <-.
  - cbn [mbind result_bind Py.bind] in H.
    pose proof (handle_raise_raises e) as He. by rewrite H in He.
Qed.

Lemma exchange_response_inv now firebase_token calls data :
  auth_routes.exchange_firebase_token s fc verify_id_token now firebase_token
    = (calls, auth_routes.TokenExchangeResponse data) ->
  exists calls0 u,
    FirebaseTokenValidator.validate_token s fc verify_id_token firebase_token
      = (calls0, Ok u) /\
    calls = (calls0 ++ [CallCreateUserWithRole; CallCreateAccessToken])%list /\
    auth_routes.user data = RoleManager.create_user_with_role s u /\
    JWTManager.create_access_token s now (auth_routes.user data)
      = Ok (auth_routes.jwt_token data, auth_routes.expires_at data).
Proof.
  unfold auth_routes.exchange_firebase_token.
  destruct (FirebaseTokenValidator.validate_token _ _ _ _) as [calls0 [u|e]].
  - destruct (JWTManager.create_access_token _ _ _) as [[t x]|e] eqn:Hc.
    + intros [= <- <-]. by exists calls0, u.
    + unfold auth_routes.exchange_error.
      destruct (isinstance e ValueError); [|done].
      by destruct (auth_routes.classify _).
  - unfold auth_routes.exchange_error.
    destruct (isinstance e ValueError); [|done].
    by destruct (auth_routes.classify _).
Qed.

Lemma falsy_false_inv o :
  PyStr.falsy o = false -> exists x, o = Some x /\ x <> "".
Proof.
  destruct o as [x|]; simpl; [|done].
  intros H%String.eqb_neq. by exists x.
Qed.

End exchange.

(** X15. Outside debug mode, an identity that [validate_token] returns
    came from a token the provider decoded, after that single provider
    call; it has the decoded subject id, non-empty, a non-empty email
    inside the allowed domain, a verified email, the decoded picture,
    and the decoded name or, when that is missing or empty, the
    display name. *)
Theorem X15_validated_identity {casing : PyStr.Casing} (s : Settings.t)
    (fc : FirebaseConfig.t) (verify_id_token : FirebaseConfig.provider) (firebase_token : string)
    (calls : list call) (u : UserInfo.t) :
  Settings.DEBUG s = false ->
  FirebaseTokenValidator.validate_token s fc verify_id_token firebase_token
    = (calls, Ok u) ->
  exists d,
    verify_id_token firebase_token = Ok d /\
    calls = [CallVerifyIdToken firebase_token] /\
    DecodedToken.uid d = Some (UserInfo.uid u) /\
    UserInfo.uid u <> "" /\
    UserInfo.email u <> "" /\
    Settings.is_allowed_domain s (UserInfo.email u) = true /\
    UserInfo.email_verified u = true /\
    DecodedToken.email_verified d = Some true /\
    UserInfo.picture u = DecodedToken.picture d /\
    UserInfo.name u =
      (if PyStr.falsy (DecodedToken.name d) then DecodedToken.display_name d
       else DecodedToken.name d).
Proof.
  intros Hdebug H.
  apply validate_token_ok_inv in H
    as (d & Hd & -> & Hu & He & Hv & Hdom & ->); [|done].
  exists d. unfold Identity.has_uid, Identity.has_email in *.
  apply negb_true_iff, falsy_false_inv in Hu as (uid & Hu1 & Hu2).
  apply negb_true_iff, falsy_false_inv in He as (email & He1 & He2).
  unfold Identity.domain_allowed in Hdom. unfold Identity.verified in Hv.
  rewrite He1 in Hdom. rewrite Hu1, He1. simpl.
  repeat split; try done.
  by destruct (DecodedToken.email_verified d) as [[]|].
Qed.

Lemma X15_validated_identity_witness :
  let s := Settings.from_env false "secret" 24 in
  let d := {| DecodedToken.uid := Some "u1";
              DecodedToken.email := Some "student@pocheonil.hs.kr";
              DecodedToken.name := Some "";
              DecodedToken.display_name := Some "Student One";
              DecodedToken.picture := None;
              DecodedToken.email_verified := Some true |} in
  exists u,
    FirebaseTokenValidator.validate_token s (FirebaseConfig.mk None)
      (fun _ => Ok d) "raw-token" = ([CallVerifyIdToken "raw-token"], Ok u) /\
    UserInfo.name u = Some "Student One".
Proof.
  intros s d. eexists. split; [reflexivity|].
  destruct (X15_validated_identity (casing:=PyStr.ascii_casing) s (FirebaseConfig.mk None) (fun _ => Ok d)
              "raw-token" _ _ eq_refl eq_refl)
    as (d' & [= <-] & _ & _ & _ & _ & _ & _ & _ & _ & Hn).
  exact Hn.
Defined.

(** X16. Outside debug mode, an exchange that returns a token ran the
    provider call, the role resolution and the issuance, in that order;
    the user in the answer is never a guest: the role is admin when the
    email is on the allow-list and student otherwise, with the
    permission list of that role, and the expiry is the clock plus the
    configured lifetime. *)
Theorem X16_exchange_never_issues_guest {casing : PyStr.Casing}
    (s : Settings.t) (fc : FirebaseConfig.t) (verify_id_token : FirebaseConfig.provider)
    (now : Z) (firebase_token : string) (calls : list call)
    (data : auth_routes.TokenData) :
  Settings.DEBUG s = false ->
  auth_routes.exchange_firebase_token s fc verify_id_token now firebase_token
    = (calls, auth_routes.TokenExchangeResponse data) ->
  let user := auth_routes.user data in
  calls = [CallVerifyIdToken firebase_token; CallCreateUserWithRole;
           CallCreateAccessToken] /\
  UserWithRole.role user <> UserRole.GUEST /\
  UserWithRole.role user =
    (if Settings.is_admin_email s (UserWithRole.email user)
     then UserRole.ADMIN else UserRole.STUDENT) /\
  UserWithRole.permissions user
    = RoleManager.get_role_permissions (UserWithRole.role user) /\
  UserWithRole.email_verified user = true /\
  auth_routes.expires_at data
    = now + Settings.ACCESS_TOKEN_EXPIRE_HOURS s * datetime.HOUR.
Proof.
  intros Hdebug H user. subst user.
  apply exchange_response_inv in H as (calls0 & u & Hv & -> & Hu & Hc).
  apply validate_token_ok_inv in Hv
    as (d & _ & -> & _ & _ & _ & Hdom & ->); [|done].
  apply create_access_token_inv in Hc as (_ & _ & ->).
  rewrite Hu. unfold RoleManager.create_user_with_role; simpl.
  rewrite determine_user_role_cases; simpl.
  unfold Identity.domain_allowed in Hdom. rewrite Hdom.
  split; [done|].
  by destruct (Settings.is_admin_email s (default "" (DecodedToken.email d))).
Qed.

Lemma X16_exchange_never_issues_guest_witness :
  let s := Settings.from_env false "secret" 24 in
  let d := {| DecodedToken.uid := Some "u1";
              DecodedToken.email := Some "Admin@Pocheonil.hs.kr";
              DecodedToken.name := None; DecodedToken.display_name := None;
              DecodedToken.picture := None;
              DecodedToken.email_verified := Some true |} in
  exists data,
    auth_routes.exchange_firebase_token s (FirebaseConfig.mk None)
      (fun _ => Ok d) 1700000000000000 "raw-token" =
    ([CallVerifyIdToken "raw-token"; CallCreateUserWithRole;
      CallCreateAccessToken], auth_routes.TokenExchangeResponse data) /\
    UserWithRole.role (auth_routes.user data) = "admin".
Proof.
  intros s d. eexists. split; [reflexivity|].
  destruct (X16_exchange_never_issues_guest (casing:=PyStr.ascii_casing) s (FirebaseConfig.mk None)
              (fun _ => Ok d) 1700000000000000 "raw-token" _ _ eq_refl eq_refl)
    as (_ & _ & H & _).
  exact H.
Defined.

(** X17. The token an exchange returns is usable at once: presented
    between the exchange and the expiry claim, it verifies, and [/me]
    answers the subject id, role and permission list of the user in the
    exchange answer. *)
Theorem X17_exchanged_token_verifies {casing : PyStr.Casing}
    (s : Settings.t) (fc : FirebaseConfig.t) (verify_id_token : FirebaseConfig.provider)
    (now now_v : Z) (firebase_token : string) (calls : list call)
    (data : auth_routes.TokenData) :
  auth_routes.exchange_firebase_token s fc verify_id_token now firebase_token
    = (calls, auth_routes.TokenExchangeResponse data) ->
  0 <= now <= now_v ->
  now_v < datetime.int_timestamp (auth_routes.expires_at data)
          * datetime.MICRO ->
  let user := auth_routes.user data in
  exists claims,
    JWTManager.verify_access_token s now_v (auth_routes.jwt_token data)
      = Ok claims /\
    jwt.sub claims = Some (UserWithRole.uid user) /\
    jwt.role claims = Some (UserWithRole.role user) /\
    jwt.permissions claims = Some (UserWithRole.permissions user) /\
    auth_routes.get_current_user s now_v (auth_routes.jwt_token data) =
    ([CallVerifyAccessToken],
     auth_routes.MeResponse
       {| auth_routes.me_uid := Some (UserWithRole.uid user);
          auth_routes.me_email := Some (UserWithRole.email user);
          auth_routes.me_name := UserWithRole.name user;
          auth_routes.me_role := Some (UserWithRole.role user);
          auth_routes.me_permissions := UserWithRole.permissions user;
          auth_routes.me_expires_at :=
            Some (datetime.int_timestamp (auth_routes.expires_at data)) |}).
Proof.
  intros H Hn He user. subst user.
  apply exchange_response_inv in H as (calls0 & u & _ & _ & _ & Hc).
  apply create_access_token_inv in Hc as (_ & Ht & Hx).
  rewrite Hx in He |- *. rewrite Ht.
  pose proof (verify_issued s now now_v (auth_routes.user data) Hn He) as Hv.
  exists (Token.issued_claims s now (auth_routes.user data)).
  split; [exact Hv|]. repeat split.
  unfold auth_routes.get_current_user. by rewrite Hv.
Qed.

Lemma X17_exchanged_token_verifies_witness :
  let s := Settings.from_env false "secret" 24 in
  let d := {| DecodedToken.uid := Some "u1";
              DecodedToken.email := Some "student@pocheonil.hs.kr";
              DecodedToken.name := None; DecodedToken.display_name := None;
              DecodedToken.picture := None;
              DecodedToken.email_verified := Some true |} in
  exists data claims,
    auth_routes.exchange_firebase_token s (FirebaseConfig.mk None)
      (fun _ => Ok d) 1700000000000000 "raw-token" =
    ([CallVerifyIdToken "raw-token"; CallCreateUserWithRole;
      CallCreateAccessToken], auth_routes.TokenExchangeResponse data) /\
    JWTManager.verify_access_token s 1700000000000001
      (auth_routes.jwt_token data) = Ok claims /\
    jwt.role claims = Some "student".
Proof.
  intros s d.
  destruct (X17_exchanged_token_verifies (casing:=PyStr.ascii_casing) s (FirebaseConfig.mk None)
              (fun _ => Ok d) 1700000000000000 1700000000000001 "raw-token"
              _ _ eq_refl) as (claims & Hv & _ & Hr & _);
    [lia|by vm_compute|].
  eexists _, claims. split; [reflexivity|]. by split.
Defined.

(** ** Initialising the identity provider client *)

Section firebase_config.

Variable env : FirebaseConfig.sdk.

Lemma initialize_firebase_initialised fc app :
  FirebaseConfig._app fc = Some app ->
  FirebaseConfig.initialize_firebase env fc = (fc, Ok app).
Proof. intros H. unfold FirebaseConfig.initialize_firebase. by rewrite H. Qed.

Lemma initialize_firebase_ok_inv fc fc1 app :
  FirebaseConfig.initialize_firebase env fc = (fc1, Ok app) ->
  FirebaseConfig._app fc1 = Some app.
Proof.
  unfold FirebaseConfig.initialize_firebase.
  destruct (FirebaseConfig._app fc) as [a|] eqn:E.
  - by intros [= <- <-].
  - destruct (_ ≫= _) as [a|e]; [|done]. by intros [= <- <-].
Qed.

Lemma initialize_firebase_raise_inv fc fc1 e :
  FirebaseConfig.initialize_firebase env fc = (fc1, Raise e) ->
  fc1 = fc /\ FirebaseConfig._app fc = None /\
  exc_cls e = ValueError /\
  String.prefix "Failed to initialize Firebase Admin SDK: " (exc_msg e) = true.
Proof.
  unfold FirebaseConfig.initialize_firebase.
  destruct (FirebaseConfig._app fc) as [a|] eqn:E; [done|].
  destruct (_ ≫= _) as [a|e0]; [done|]. intros [= <- <-].
  repeat split. apply prefix_app.
Qed.

Lemma verify_id_token_initialised fc app id_token :
  FirebaseConfig._app fc = Some app ->
  FirebaseConfig.verify_id_token env fc id_token =
  (fc, FirebaseConfig.auth_verify_id_token env id_token).
Proof.
  intros H. unfold FirebaseConfig.verify_id_token,
    FirebaseConfig.get_auth_client. by rewrite H.
Qed.

End firebase_config.

(** X18. Initialisation happens once: after [initialize_firebase] has
    succeeded, the class holds the app; a further call returns that
    same app without touching the credentials or the SDK, whatever
    these would now answer, and [verify_id_token] goes straight to the
    SDK with the class state unchanged. *)
Theorem X18_initialize_once (env env' : FirebaseConfig.sdk)
    (fc fc1 : FirebaseConfig.t) (app : string) :
  FirebaseConfig.initialize_firebase env fc = (fc1, Ok app) ->
  FirebaseConfig._app fc1 = Some app /\
  FirebaseConfig.initialize_firebase env' fc1 = (fc1, Ok app) /\
  FirebaseConfig.get_auth_client env' fc1 = (fc1, Ok ()) /\
  (forall id_token,
     FirebaseConfig.verify_id_token env' fc1 id_token =
     (fc1, FirebaseConfig.auth_verify_id_token env' id_token)).
Proof.
  intros H%initialize_firebase_ok_inv.
  split; [done|]. split; [by apply initialize_firebase_initialised|].
  split.
  - unfold FirebaseConfig.get_auth_client. by rewrite H.
  - intros id_token. by apply (verify_id_token_initialised env' fc1 app).
Qed.

Lemma X18_initialize_once_witness :
  let env :=
    FirebaseConfig.mk_sdk true (Ok "cert") None
      (fun _ => Raise (Exc Exception "unused"))
      (fun cred => Ok ("app:" +:+ cred))
      (fun _ => Raise (Exc InvalidIdTokenError "bad token")) in
  let broken :=
    FirebaseConfig.mk_sdk false (Raise (Exc Exception "no file")) None
      (fun _ => Raise (Exc Exception "unused"))
      (fun _ => Raise (Exc Exception "no sdk"))
      (fun _ => Raise (Exc InvalidIdTokenError "bad token")) in
  FirebaseConfig.initialize_firebase broken
    (FirebaseConfig.initialize_firebase env (FirebaseConfig.mk None)).1
  = (FirebaseConfig.mk (Some "app:cert"), Ok "app:cert").
Proof.
  intros env broken.
  by destruct (X18_initialize_once env broken (FirebaseConfig.mk None)
                 (FirebaseConfig.mk (Some "app:cert")) "app:cert" eq_refl)
    as (_ & H & _).
Defined.

(** X19. A failed initialisation leaves the class uninitialised, so
    that a later call tries again, and always surfaces as a ValueError
    whose message starts with "Failed to initialize Firebase Admin
    SDK: ".  When the key file exists but cannot be loaded, the key in the
    environment variable is not tried. *)
Theorem X19_initialize_failure (env : FirebaseConfig.sdk)
    (fc : FirebaseConfig.t) :
  (forall fc1 e,
     FirebaseConfig.initialize_firebase env fc = (fc1, Raise e) ->
     fc1 = fc /\ FirebaseConfig._app fc = None /\
     exc_cls e = ValueError /\
     String.prefix "Failed to initialize Firebase Admin SDK: " (exc_msg e)
       = true) /\
  (forall e,
     FirebaseConfig._app fc = None ->
     FirebaseConfig.path_exists env = true ->
     FirebaseConfig.certificate_from_path env = Raise e ->
     FirebaseConfig.initialize_firebase env fc =
     (fc, Raise (Exc ValueError
                   ("Failed to initialize Firebase Admin SDK: "
                    +:+ exc_msg e)))).
Proof.
  split; [intros fc1 e; apply initialize_firebase_raise_inv|].
  intros e Happ Hpath Hcert. unfold FirebaseConfig.initialize_firebase.
  by rewrite Happ, Hpath, Hcert.
Qed.

Lemma X19_initialize_failure_witness :
  let env :=
    FirebaseConfig.mk_sdk true (Raise (Exc Exception "corrupt key file"))
      (Some "{...}") (fun _ => Ok "cert-from-env")
      (fun cred => Ok ("app:" +:+ cred))
      (fun _ => Raise (Exc InvalidIdTokenError "bad token")) in
  FirebaseConfig.initialize_firebase env (FirebaseConfig.mk None) =
  (FirebaseConfig.mk None,
   Raise (Exc ValueError
            "Failed to initialize Firebase Admin SDK: corrupt key file")).
Proof.
  intros env.
  destruct (X19_initialize_failure env (FirebaseConfig.mk None)) as [_ H].
  by apply (H (Exc Exception "corrupt key file")).
Defined.

(** X20. Without credentials (no key file, no key in the environment)
    and with the client uninitialised, [verify_id_token] fails for
    every token before the SDK is asked; outside debug mode the
    validator wraps the error and the exchange answers 400 BAD_REQUEST
    for every token, with no role resolved and no token issued. *)
Theorem X20_no_credentials {casing : PyStr.Casing} (s : Settings.t)
    (env : FirebaseConfig.sdk)
    (fc : FirebaseConfig.t) (now : Z) (firebase_token : string) :
  Settings.DEBUG s = false ->
  FirebaseConfig._app fc = None ->
  FirebaseConfig.path_exists env = false ->
  PyStr.falsy (FirebaseConfig.service_account_key env) = true ->
  FirebaseConfig.verify_id_token env fc firebase_token =
    (fc, Raise (Exc ValueError
                  ("Failed to initialize Firebase Admin SDK: "
                   +:+ FirebaseConfig.NO_CREDENTIALS))) /\
  auth_routes.exchange_firebase_token s fc
    (fun t => (FirebaseConfig.verify_id_token env fc t).2) now firebase_token =
  ([CallVerifyIdToken firebase_token],
   auth_routes.HTTPException 400 "BAD_REQUEST"
     ("Token validation failed: Failed to initialize Firebase Admin SDK: "
      +:+ FirebaseConfig.NO_CREDENTIALS)).
Proof.
  intros Hdebug Happ Hpath Hkey.
  assert (forall t, FirebaseConfig.verify_id_token env fc t =
            (fc, Raise (Exc ValueError
                          ("Failed to initialize Firebase Admin SDK: "
                           +:+ FirebaseConfig.NO_CREDENTIALS)))) as H.
  { intros t. unfold FirebaseConfig.verify_id_token,
      FirebaseConfig.get_auth_client, FirebaseConfig.initialize_firebase.
    by rewrite Happ, Hpath, Hkey. }
  split; [apply H|].
  unfold auth_routes.exchange_firebase_token.
  rewrite validate_token_production by done.
  rewrite H. cbn [snd mbind result_bind Py.bind].
  change (FirebaseTokenValidator.handle (Raise _)) with
    (Identity.value_error
       ("Token validation failed: Failed to initialize Firebase Admin SDK: "
        +:+ FirebaseConfig.NO_CREDENTIALS)).
  unfold Identity.value_error.
  by rewrite exchange_error_closed by reflexivity.
Qed.

Lemma X20_no_credentials_witness :
  let s := Settings.from_env false "secret" 24 in
  let env :=
    FirebaseConfig.mk_sdk false (Raise (Exc Exception "no file")) (Some "")
      (fun _ => Ok "cert") (fun cred => Ok ("app:" +:+ cred))
      (fun _ => Ok (DecodedToken.mk (Some "u1") (Some "a@pocheonil.hs.kr")
                      None None None (Some true))) in
  exists message,
    auth_routes.exchange_firebase_token s (FirebaseConfig.mk None)
      (fun t => (FirebaseConfig.verify_id_token env (FirebaseConfig.mk None)
                   t).2) 1700000000000000 "any-token" =
    ([CallVerifyIdToken "any-token"],
     auth_routes.HTTPException 400 "BAD_REQUEST" message).
Proof.
  intros s env. eexists.
  by apply (X20_no_credentials (casing:=PyStr.ascii_casing) s env (FirebaseConfig.mk None)
              1700000000000000 "any-token").
Defined.

(** ** Further edge behaviour *)

Section edges.

Context {casing : PyStr.Casing}.
Variable s : Settings.t.

Lemma not_invalid_id_token e :
  isinstance e InvalidIdTokenError = false ->
  isinstance e ExpiredIdTokenError = false /\
  isinstance e RevokedIdTokenError = false.
Proof. by destruct e as [[] msg]. Qed.

Lemma exchange_error_status e :
  match auth_routes.exchange_error e with
  | auth_routes.HTTPException status _ _ =>
      status = 500 <-> isinstance e ValueError = false
  | auth_routes.TokenExchangeResponse _ => False
  end.
Proof.
  unfold auth_routes.exchange_error, auth_routes.classify.
  destruct (isinstance e ValueError); [|done].
  destruct (PyStr.any_in _ _); [done|].
  destruct (PyStr.any_in _ _); [done|].
  by destruct (PyStr.contains _ _).
Qed.

Lemma handle_passes_through r e :
  FirebaseTokenValidator.handle r = Raise e ->
  isinstance e ValueError = false ->
  r = Raise e /\ isinstance e InvalidIdTokenError = false /\
  (PyStr.contains "Email domain not allowed" (exc_msg e) = true \/
   PyStr.contains "Email address is not verified" (exc_msg e) = true).
Proof.
  unfold FirebaseTokenValidator.handle. destruct r as [u|e0]; [done|].
  destruct (isinstance e0 InvalidIdTokenError) eqn:E1;
    [by intros [= <-]|].
  destruct (isinstance e0 ExpiredIdTokenError); [by intros [= <-]|].
  destruct (isinstance e0 RevokedIdTokenError); [by intros [= <-]|].
  destruct (PyStr.contains "Email domain not allowed" (exc_msg e0)) eqn:E2;
    simpl.
  - intros [= <-] _. split; [done|]. split; [done|]. by left.
  - destruct (PyStr.contains "Email address is not verified" (exc_msg e0))
      eqn:E3; [|by intros [= <-]].
    intros [= <-] _. split; [done|]. split; [done|]. by right.
Qed.

Lemma check_decoded_raises_ValueError d e :
  FirebaseTokenValidator.check_decoded s d = Raise e ->
  exc_cls e = ValueError.
Proof.
  unfold FirebaseTokenValidator.check_decoded.
  destruct (PyStr.falsy (DecodedToken.uid d)); [by intros [= <-]|].
  destruct (PyStr.falsy (DecodedToken.email d)); [by intros [= <-]|].
  destruct (negb _); [by intros [= <-]|].
  by destruct (negb _); [intros [= <-]|].
Qed.

End edges.

(** X21. Being on the admin allow-list does not lift the domain
    restriction: outside debug mode, a verified identity whose email is
    outside the allowed domain is refused with the domain error and the
    exchange stops after the provider call with an error answer,
    whether or not the email is on the allow-list. *)
Theorem X21_domain_check_precedes_allow_list {casing : PyStr.Casing}
    (s : Settings.t) (fc : FirebaseConfig.t) (verify_id_token : FirebaseConfig.provider)
    (now : Z) (firebase_token : string) (d : DecodedToken.t) :
  Settings.DEBUG s = false ->
  verify_id_token firebase_token = Ok d ->
  Identity.has_uid d = true -> Identity.has_email d = true ->
  Identity.verified d = true ->
  Identity.domain_allowed s d = false ->
  FirebaseTokenValidator.validate_token s fc verify_id_token firebase_token =
    ([CallVerifyIdToken firebase_token],
     Identity.value_error
       ("Email domain not allowed. Must be from "
        +:+ Settings.ALLOWED_EMAIL_DOMAIN s)) /\
  exists status_code code,
    auth_routes.exchange_firebase_token s fc verify_id_token now
      firebase_token =
    ([CallVerifyIdToken firebase_token],
     auth_routes.HTTPException status_code code
       ("Email domain not allowed. Must be from "
        +:+ Settings.ALLOWED_EMAIL_DOMAIN s)) /\
    status_code <> 500.
Proof.
  intros Hdebug Hd Hu He Hv Hdom.
  assert (FirebaseTokenValidator.validate_token s fc verify_id_token
            firebase_token =
          ([CallVerifyIdToken firebase_token],
           Identity.value_error
             ("Email domain not allowed. Must be from "
              +:+ Settings.ALLOWED_EMAIL_DOMAIN s))) as H.
  { rewrite validate_token_production, Hd by done.
    cbn [mbind result_bind Py.bind].
    by rewrite handle_check_decoded, Hu, He, Hv, Hdom. }
  split; [done|].
  unfold auth_routes.exchange_firebase_token. rewrite H.
  unfold Identity.value_error, auth_routes.exchange_error.
  cbn [isinstance exc_cls exc_msg].
  replace (issubclass ValueError ValueError) with true by done.
  destruct (auth_routes.classify _) as [status code] eqn:Hc.
  exists status, code. split; [done|].
  unfold auth_routes.classify in Hc.
  destruct (PyStr.any_in _ _); [by injection Hc as <- _|].
  destruct (PyStr.any_in _ _); [by injection Hc as <- _|].
  destruct (PyStr.contains _ _); by injection Hc as <- _.
Qed.

Lemma X21_domain_check_precedes_allow_list_witness :
  let s := RoleManager.add_admin_email "head@partner.example"
             (Settings.from_env false "secret" 24) in
  let d := {| DecodedToken.uid := Some "u9";
              DecodedToken.email := Some "head@partner.example";
              DecodedToken.name := None; DecodedToken.display_name := None;
              DecodedToken.picture := None;
              DecodedToken.email_verified := Some true |} in
  Settings.is_admin_email s "head@partner.example" = true /\
  exists status_code code,
    auth_routes.exchange_firebase_token s (FirebaseConfig.mk None)
      (fun _ => Ok d) 1700000000000000 "raw-token" =
    ([CallVerifyIdToken "raw-token"],
     auth_routes.HTTPException status_code code
       "Email domain not allowed. Must be from @pocheonil.hs.kr").
Proof.
  intros s d. split; [done|].
  destruct (X21_domain_check_precedes_allow_list (casing:=PyStr.ascii_casing) s (FirebaseConfig.mk None)
              (fun _ => Ok d) 1700000000000000 "raw-token" d)
    as (_ & status & code & H & _); try done.
  by exists status, code.
Defined.

(** X22. Outside debug mode the exchange answers 500 INTERNAL_ERROR in
    one situation only: the provider raised an exception that is
    neither one of its token errors nor a ValueError and whose message
    contains "Email domain not allowed" or "Email address is not
    verified", so that the validator re-raised it unwrapped.  Every
    other failure, an issuance failure included, is answered with 400,
    401 or 403. *)
Theorem X22_internal_error_only_by_passthrough {casing : PyStr.Casing}
    (s : Settings.t) (fc : FirebaseConfig.t) (verify_id_token : FirebaseConfig.provider)
    (now : Z) (firebase_token : string) (calls : list call)
    (code message : string) :
  Settings.DEBUG s = false ->
  auth_routes.exchange_firebase_token s fc verify_id_token now firebase_token
    = (calls, auth_routes.HTTPException 500 code message) ->
  calls = [CallVerifyIdToken firebase_token] /\
  code = "INTERNAL_ERROR" /\
  exists e,
    verify_id_token firebase_token = Raise e /\
    isinstance e InvalidIdTokenError = false /\
    isinstance e ValueError = false /\
    (PyStr.contains "Email domain not allowed" (exc_msg e) = true \/
     PyStr.contains "Email address is not verified" (exc_msg e) = true).
Proof.
  intros Hdebug. unfold auth_routes.exchange_firebase_token.
  rewrite validate_token_production by done.
  destruct (FirebaseTokenValidator.handle _) as [u|e] eqn:Hh.
  - destruct (JWTManager.create_access_token _ _ _) as [[t x]|e] eqn:Hc;
      [done|].
    intros [= _ H].
    destruct (create_access_token_outcome s now
                (RoleManager.create_user_with_role s u)) as [_ Hcls].
    destruct (Hcls e Hc) as [Hv _].
    pose proof (exchange_error_status e) as Hs. rewrite H in Hs.
    unfold isinstance in Hs. rewrite Hv in Hs.
    pose proof (proj1 Hs eq_refl) as Hf. by vm_compute in Hf.
  - intros [= <- H].
    pose proof (exchange_error_status e) as Hs. rewrite H in Hs.
    pose proof (proj1 Hs eq_refl) as Hne.
    split; [done|]. split.
    { unfold auth_routes.exchange_error in H. rewrite Hne in H.
      by injection H as <- _. }
    apply handle_passes_through in Hh as (Hr & Hi & Hp); [|done].
    exists e.
    destruct (verify_id_token firebase_token) as [d|e'] eqn:Hd.
    + cbn [mbind result_bind Py.bind] in Hr.
      apply check_decoded_raises_ValueError in Hr.
      unfold isinstance in Hne. by rewrite Hr in Hne.
    + cbn [mbind result_bind Py.bind] in Hr. by injection Hr as ->.
Qed.

Lemma X22_internal_error_only_by_passthrough_witness :
  let s := Settings.from_env false "secret" 24 in
  let e := Exc Exception "upstream says: Email address is not verified" in
  exists e',
    (fun _ : string => @Raise DecodedToken.t e) "raw-token" = Raise e' /\
    isinstance e' ValueError = false.
Proof.
  intros s e.
  destruct (X22_internal_error_only_by_passthrough (casing:=PyStr.ascii_casing) s (FirebaseConfig.mk None)
              (fun _ => Raise e) 1700000000000000 "raw-token"
              [CallVerifyIdToken "raw-token"] "INTERNAL_ERROR"
              "내부 서버 오류가 발생했습니다. 잠시 후 다시 시도해주세요."
              eq_refl eq_refl)
    as (_ & _ & e' & H1 & _ & H2 & _).
  by exists e'.
Defined.

(** X23. The expiry read back from an issued token is the returned
    expiry truncated to whole seconds: for a token issued with an
    expiry between the epoch and 2^34 seconds after it,
    [get_token_expiration] answers an instant that is not later than
    the returned expiry and less than one second before it. *)
Theorem X23_expiration_read_back (s : Settings.t) (now : Z)
    (user : UserWithRole.t) (tok : jwt.token) (expires_at : Z) :
  JWTManager.create_access_token s now user = Ok (tok, expires_at) ->
  Token.float_exact expires_at ->
  exists expiration,
    JWTManager.get_token_expiration tok = Some expiration /\
    expiration = datetime.int_timestamp expires_at * datetime.MICRO /\
    expiration <= expires_at < expiration + datetime.MICRO.
Proof.
  intros (Hc & -> & ->)%create_access_token_inv [Hpos _].
  unfold Token.can_issue in Hc. apply andb_true_iff in Hc as [_ Hr].
  set (x := now + Settings.ACCESS_TOKEN_EXPIRE_HOURS s * datetime.HOUR) in *.
  assert (datetime.int_timestamp x * datetime.MICRO <= x
          < datetime.int_timestamp x * datetime.MICRO + datetime.MICRO) as Hb.
  { unfold datetime.int_timestamp, datetime.MICRO.
    pose proof (Z.quot_rem' x 1000000).
    pose proof (Z.rem_bound_pos x 1000000). lia. }
  exists (datetime.int_timestamp x * datetime.MICRO).
  split; [|done].
  unfold Token.signed. rewrite get_token_expiration_JWS. simpl. fold x.
  replace (datetime.in_range _) with true; [done|].
  symmetry. unfold datetime.in_range in *.
  apply andb_true_iff in Hr as [H1 H2].
  apply Z.leb_le in H1, H2. apply andb_true_iff.
  assert (0 <= datetime.int_timestamp x * datetime.MICRO).
  { unfold datetime.int_timestamp, datetime.MICRO.
    pose proof (Z.quot_pos x 1000000). lia. }
  unfold datetime.min, datetime.MICRO in *.
  split; apply Z.leb_le; lia.
Qed.

Lemma X23_expiration_read_back_witness :
  let s := Settings.from_env false "secret" 24 in
  let u := UserWithRole.mk "u1" "a@pocheonil.hs.kr" None None true
             "student" [] in
  exists tok,
    JWTManager.create_access_token s 1700000000123456 u
      = Ok (tok, 1700086400123456) /\
    JWTManager.get_token_expiration tok = Some 1700086400000000.
Proof.
  intros s u. eexists. split; [reflexivity|].
  destruct (X23_expiration_read_back s 1700000000123456 u _ 1700086400123456
              eq_refl) as (x & Hx & -> & _); [by vm_compute|].
  exact Hx.
Defined.
